(** * httptestclient: a shallow embedding of client.go and expand.go

    Go strings are byte sequences; they are modelled as [list ascii]
    (an [ascii] is an 8-bit character), so that slicing [s[a:b]] is
    [take (b - a) (drop a s)]. *)

From Stdlib Require Import String Ascii ZArith Lia.
From stdpp Require Import base list gmap strings.

Open Scope Z_scope.

Abbreviation gostr := (list ascii).

(** Go string literal. *)
Definition lit (s : string) : gostr := list_ascii_of_string s.

(** [s[a:b]] (indices produced by the regexp engine are always in range). *)
Definition substr (s : gostr) (a b : nat) : gostr := take (b - a) (drop a s).

(** strings.HasPrefix *)
Definition hasPrefix (s prefix : gostr) : bool :=
  bool_decide (take (length prefix) s = prefix).

(** Decimal digits of a [Decimal.uint]. *)
Fixpoint uint_digits (d : Decimal.uint) : gostr :=
  match d with
  | Decimal.Nil => []
  | Decimal.D0 d => "0"%char :: uint_digits d
  | Decimal.D1 d => "1"%char :: uint_digits d
  | Decimal.D2 d => "2"%char :: uint_digits d
  | Decimal.D3 d => "3"%char :: uint_digits d
  | Decimal.D4 d => "4"%char :: uint_digits d
  | Decimal.D5 d => "5"%char :: uint_digits d
  | Decimal.D6 d => "6"%char :: uint_digits d
  | Decimal.D7 d => "7"%char :: uint_digits d
  | Decimal.D8 d => "8"%char :: uint_digits d
  | Decimal.D9 d => "9"%char :: uint_digits d
  end.

(** fmt's [%d] of a Go int. *)
Definition fmtInt (z : Z) : gostr :=
  if z <? 0 then "-"%char :: uint_digits (N.to_uint (Z.to_N (- z)))
  else uint_digits (N.to_uint (Z.to_N z)).

(** ** joinPath (client.go) *)

(** [func joinPath(root, path string) string] *)
Definition joinPath (root path : gostr) : gostr :=
  if negb (hasPrefix path (lit "/")) then root ++ lit "/" ++ path
  else root ++ path.

(** ** expand.go *)

(** strconv.Atoi on a 64-bit platform (fast and slow path): an optional
    sign, at least one decimal digit, and a value in the range of int.
    Underscores are not accepted in base 10. *)
Fixpoint digitsValueAcc (acc : Z) (s : gostr) : option Z :=
  match s with
  | [] => Some acc
  | c :: s' =>
      let d := Z.of_nat (nat_of_ascii c) - 48 in
      if (0 <=? d) && (d <=? 9) then digitsValueAcc (acc * 10 + d) s' else None
  end.

Definition digitsValue (s : gostr) : option Z := digitsValueAcc 0 s.

Definition atoi (s : gostr) : option Z :=
  let '(neg, body) :=
    match s with
    | "-"%char :: r => (true, r)
    | "+"%char :: r => (false, r)
    | _ => (false, s)
    end in
  match body with
  | [] => None
  | _ =>
      match digitsValue body with
      | None => None
      | Some n =>
          if neg then (if n <=? 2 ^ 63 then Some (- n) else None)
          else (if n <? 2 ^ 63 then Some n else None)
      end
  end.

(** The character class [[a-zA-Z0-9_]]. *)
Definition isWordByte (c : ascii) : bool :=
  let n := nat_of_ascii c in
  ((97 <=? n) && (n <=? 122))%nat || ((65 <=? n) && (n <=? 90))%nat
  || ((48 <=? n) && (n <=? 57))%nat || (n =? 95)%nat.

Definition isDollar (c : ascii) : bool := bool_decide (c = "$"%char).

(** The matcher of [rxDollarEnv = regexp.MustCompile(`\$(?P<Key>[a-zA-Z0-9_]+)`)]
    as used by [FindAllSubmatchIndex(str, -1)]: leftmost-first, greedy,
    non-overlapping matches, each reported as
    [[start; end; groupStart; groupEnd]].  The scan is a three-state
    automaton: idle, just after a ['$'] at [p], inside a token opened at [p]. *)
Inductive scanState := SIdle | SDollar (p : nat) | STok (p : nat).

Definition idleStep (c : ascii) (off : nat) : scanState :=
  if isDollar c then SDollar off else SIdle.

Fixpoint findAllFrom (s : gostr) (off : nat) (st : scanState) : list (list nat) :=
  match s with
  | [] => match st with STok p => [[p; off; S p; off]] | _ => [] end
  | c :: s' =>
      match st with
      | STok p =>
          if isWordByte c then findAllFrom s' (S off) (STok p)
          else [p; off; S p; off] :: findAllFrom s' (S off) (idleStep c off)
      | SDollar p =>
          if isWordByte c then findAllFrom s' (S off) (STok p)
          else findAllFrom s' (S off) (idleStep c off)
      | SIdle => findAllFrom s' (S off) (idleStep c off)
      end
  end.

Definition findAllSubmatchIndex (s : gostr) : list (list nat) := findAllFrom s 0 SIdle.

(** [for i := 0; i < len(v); i += 2 { groups = append(groups, str[v[i]:v[i+1]]) }] *)
Fixpoint groupsOf (str : gostr) (v : list nat) : list gostr :=
  match v with
  | a :: b :: v' => substr str a b :: groupsOf str v'
  | _ => []
  end.

(** The loop of [replaceAllStringSubMatchFunc], with [result] and
    [lastIndex] as accumulators. *)
Fixpoint replLoop (str : gostr) (repl : list gostr -> gostr)
    (result : gostr) (lastIndex : nat) (ms : list (list nat)) : gostr :=
  match ms with
  | [] => result ++ drop lastIndex str
  | v :: ms' =>
      let groups := groupsOf str v in
      replLoop str repl (result ++ substr str lastIndex (nth 0 v 0%nat) ++ repl groups)
        (nth 1 v 0%nat) ms'
  end.

Definition replaceAllStringSubMatchFunc (str : gostr) (repl : list gostr -> gostr) : gostr :=
  replLoop str repl [] 0 (findAllSubmatchIndex str).

Section Expand.
(** Values of type [any]: [fmtV] is fmt's [%v], [asStringMap] the type
    assertion [args[0].(map[string]any)] followed by map lookup. *)
Variable Val : Type.
Variable fmtV : Val -> gostr.
Variable asStringMap : Val -> option (gostr -> option Val).

Definition noKey (name : gostr) : gostr := lit "[no_key:$" ++ name ++ lit "]".
Definition badIndex (i : Z) : gostr := lit "[bad_index:$" ++ fmtInt i ++ lit "]".

(** The callback given to [replaceAllStringSubMatchFunc] in [expandStr]. *)
Definition expandRepl (args : list Val) (values : list gostr) : gostr :=
  let key := nth 1 values [] in
  match atoi key with
  | Some i =>
      if (i <? 0) || (i >=? Z.of_nat (length args)) then badIndex i
      else match args !! Z.to_nat i with Some a => fmtV a | None => [] end
  | None =>
      if (length args =? 1)%nat then
        match args !! 0%nat with
        | Some a =>
            match asStringMap a with
            | Some m => match m key with Some v => fmtV v | None => noKey key end
            | None => noKey key
            end
        | None => noKey key
        end
      else noKey key
  end.

(** [func expandStr(msg string, args ...any) string] *)
Definition expandStr (msg : gostr) (args : list Val) : gostr :=
  replaceAllStringSubMatchFunc msg (expandRepl args).

(** Reference semantics, following the wording of the specification:
    a token is ['$'] followed by a maximal run of [[a-zA-Z0-9_]]; a name
    parses as a non-negative integer when it is decimal digits whose value
    fits a Go int. *)
Fixpoint wordPrefix (s : gostr) : gostr :=
  match s with c :: s' => if isWordByte c then c :: wordPrefix s' else [] | [] => [] end.
Fixpoint afterWord (s : gostr) : gostr :=
  match s with c :: s' => if isWordByte c then afterWord s' else s | [] => [] end.
Definition startsWord (s : gostr) : bool :=
  match s with c :: _ => isWordByte c | [] => false end.

Definition parsesAsIndex (name : gostr) : option Z :=
  match digitsValue name with
  | Some n => if n <? 2 ^ 63 then Some n else None
  | None => None
  end.

Definition render_ref (args : list Val) (name : gostr) : gostr :=
  match parsesAsIndex name with
  | Some i =>
      match args !! Z.to_nat i with
      | Some a => if i <? Z.of_nat (length args) then fmtV a else badIndex i
      | None => badIndex i
      end
  | None =>
      match args with
      | [a] =>
          match asStringMap a with
          | Some m => match m name with Some v => fmtV v | None => noKey name end
          | None => noKey name
          end
      | _ => noKey name
      end
  end.

Fixpoint expand_ref (fuel : nat) (args : list Val) (s : gostr) : gostr :=
  match fuel with
  | O => s
  | S f =>
      match s with
      | [] => []
      | c :: s' =>
          if isDollar c && startsWord s'
          then render_ref args (wordPrefix s') ++ expand_ref f args (afterWord s')
          else c :: expand_ref f args s'
      end
  end.

Definition expandStr_ref (msg : gostr) (args : list Val) : gostr :=
  expand_ref (length msg) args msg.

(** A template contains a token. *)
Fixpoint hasToken (s : gostr) : bool :=
  match s with
  | [] => false
  | c :: s' => (isDollar c && startsWord s') || hasToken s'
  end.
End Expand.

(** ** client.go: values, errors and the test reporter *)

(** Arguments of [fmt]-style calls, and Go [error] values. *)
Inductive Arg :=
  | AInt (z : Z)
  | AStr (s : gostr)
  | AErr (e : GoError)
with GoError :=
  | ErrorsNew (msg : gostr)                          (* errors.New *)
  | Errorf (format : gostr) (args : list Arg)        (* fmt.Errorf *)
  | UrlError (method url : gostr) (err : GoError).   (* *url.Error from http.Client.Do *)

Inductive result (A : Type) := Ok (a : A) | Err (e : GoError).
Arguments Ok {A} a.
Arguments Err {A} e.

(** [var ErrNilBodyJSON = errors.New("BodyJson requires non nil value")] *)
Definition ErrNilBodyJSON : GoError := ErrorsNew (lit "BodyJson requires non nil value").

(** A [TestingT]: a [*testing.T], whose [FailNow] stops the calling
    goroutine with [runtime.Goexit]; a [*self.FakeTester], whose [FailNow]
    does nothing and returns; or another implementation, whose [FailNow]
    may or may not return. *)
Inductive Tester := TestingT | FakeTester | OtherTester (failNowHalts : bool).

(** the type assertion of [c.t] to [*self.FakeTester] succeeds *)
Definition t_isFakeTester (t : Tester) : bool :=
  match t with FakeTester => true | _ => false end.

(** [c.t.FailNow()] does not return *)
Definition t_failNowHalts (t : Tester) : bool :=
  match t with TestingT => true | FakeTester => false | OtherTester h => h end.

(** One call of [t.Errorf(format, args...)]. *)
Record Report := mkReport { rep_format : gostr; rep_args : list Arg }.

(** [context.Context]: the background context or one supplied by the caller. *)
Inductive Ctx := Background | UserContext (id : nat).

Abbreviation HttpHeader := (gmap gostr (list gostr)).   (* http.Header *)
Abbreviation Values := (gmap gostr (list gostr)).   (* url.Values *)

(** An [*http.Request] as far as this package looks at it; [rq_path] is
    [req.URL.Path]. *)
Record Request := mkRequest {
  rq_method : gostr; rq_url : gostr; rq_path : gostr;
  rq_body : option gostr; rq_header : HttpHeader }.

Record Response := mkResponse { resp_status : Z; resp_body : gostr }.

(** The handler's answer to one request: a status with an optional
    [Location], or a transport failure. *)
Inductive Reply :=
  | RStatus (status : Z) (location : option gostr) (body : gostr)
  | RNetErr (e : GoError).

(** An [*httptest.Server]: its base URL and its handler. *)
Record Server := mkServer { srv_URL : gostr; srv_handler : Request -> Reply }.

(** The functions of Go's standard library this package calls. *)
Class GoLib := {
  canonicalMIMEHeaderKey : gostr -> gostr;                 (* textproto.CanonicalMIMEHeaderKey *)
  encodeValues : Values -> gostr;                          (* url.Values.Encode *)
  sprintf : gostr -> list Arg -> gostr;                    (* fmt.Sprintf *)
  newRequestWithContext : Ctx -> gostr -> gostr -> option gostr -> result Request;
  Payload : Type;                                          (* non-nil interface{} values *)
  jsonMarshal : Payload -> result gostr                    (* json.Marshal *)
}.

(** [type Client struct]. *)
Record Client := mkClient {
  c_t : Tester;
  c_method : gostr;
  c_url : gostr;
  c_header : HttpHeader;
  c_body : option gostr;           (* io.Reader, nil or a reader over these bytes *)
  c_form : option Values;          (* url.Values, nil or a map *)
  c_context : Ctx;
  c_expectedStatus : Z;
  c_err : option GoError;
  c_expectRedirectPath : gostr }.

Definition set_method (m : gostr) (c : Client) : Client :=
  mkClient (c_t c) m (c_url c) (c_header c) (c_body c) (c_form c) (c_context c)
    (c_expectedStatus c) (c_err c) (c_expectRedirectPath c).
Definition set_url (u : gostr) (c : Client) : Client :=
  mkClient (c_t c) (c_method c) u (c_header c) (c_body c) (c_form c) (c_context c)
    (c_expectedStatus c) (c_err c) (c_expectRedirectPath c).
Definition set_header (h : HttpHeader) (c : Client) : Client :=
  mkClient (c_t c) (c_method c) (c_url c) h (c_body c) (c_form c) (c_context c)
    (c_expectedStatus c) (c_err c) (c_expectRedirectPath c).
Definition set_body (b : option gostr) (c : Client) : Client :=
  mkClient (c_t c) (c_method c) (c_url c) (c_header c) b (c_form c) (c_context c)
    (c_expectedStatus c) (c_err c) (c_expectRedirectPath c).
Definition set_form (f : option Values) (c : Client) : Client :=
  mkClient (c_t c) (c_method c) (c_url c) (c_header c) (c_body c) f (c_context c)
    (c_expectedStatus c) (c_err c) (c_expectRedirectPath c).
Definition set_context (x : Ctx) (c : Client) : Client :=
  mkClient (c_t c) (c_method c) (c_url c) (c_header c) (c_body c) (c_form c) x
    (c_expectedStatus c) (c_err c) (c_expectRedirectPath c).
Definition set_expectedStatus (s : Z) (c : Client) : Client :=
  mkClient (c_t c) (c_method c) (c_url c) (c_header c) (c_body c) (c_form c) (c_context c)
    s (c_err c) (c_expectRedirectPath c).
Definition set_err (e : option GoError) (c : Client) : Client :=
  mkClient (c_t c) (c_method c) (c_url c) (c_header c) (c_body c) (c_form c) (c_context c)
    (c_expectedStatus c) e (c_expectRedirectPath c).
Definition set_expectRedirectPath (p : gostr) (c : Client) : Client :=
  mkClient (c_t c) (c_method c) (c_url c) (c_header c) (c_body c) (c_form c) (c_context c)
    (c_expectedStatus c) (c_err c) p.

(** ** The heap and the effect monad

    Builders are used through pointers ([*Client]), so they live in a heap
    indexed by [nat]. The world holds the client of one
    [httptest.Server]: [server.Client()] returns the same [*http.Client] on
    every call, so its [CheckRedirect] field is one shared cell of the
    world. The closure that [Do] installs there captures the builder
    pointer [c] and the address of its local [wasRedirected]. *)
Inductive RedirectPolicy :=
  | DoCheck (c : nat) (wasRedirected : nat)
  | UserCheck (f : Request -> list Request -> option GoError).

Record World := mkWorld {
  w_clients : gmap nat Client;
  w_bools : gmap nat bool;                  (* local bool variables escaping into closures *)
  w_next : nat;                             (* next free address *)
  w_checkRedirect : option RedirectPolicy;  (* server.Client().CheckRedirect *)
  w_log : list Report }.                    (* calls of t.Errorf, in order *)

(** How a computation ends: normally, by [runtime.Goexit] (from
    [testing.T.FailNow]), by a run-time panic, or by running out of the
    fuel that bounds the redirect loop of [http.Client.Do]. *)
Inductive Outcome (A : Type) := Normal (a : A) | Goexit | Panic (msg : gostr) | NoFuel.
Arguments Normal {A} a.
Arguments Goexit {A}.
Arguments Panic {A} msg.
Arguments NoFuel {A}.

Definition M (A : Type) : Type := World -> Outcome A * World.

Global Instance M_ret : MRet M := fun A a w => (Normal a, w).
Global Instance M_bind : MBind M := fun A B k m w =>
  match m w with
  | (Normal a, w') => k a w'
  | (Goexit, w') => (Goexit, w')
  | (Panic msg, w') => (Panic msg, w')
  | (NoFuel, w') => (NoFuel, w')
  end.

Definition goexit {A} : M A := fun w => (Goexit, w).
Definition panic {A} (msg : gostr) : M A := fun w => (Panic msg, w).
Definition noFuel {A} : M A := fun w => (NoFuel, w).

Definition load (c : nat) : M Client := fun w =>
  match w_clients w !! c with
  | Some cl => (Normal cl, w)
  | None => (Panic (lit "invalid memory address or nil pointer dereference"), w)
  end.

Definition setClient (w : World) (c : nat) (cl : Client) : World :=
  mkWorld (<[c := cl]> (w_clients w)) (w_bools w) (w_next w) (w_checkRedirect w) (w_log w).

Definition store (c : nat) (cl : Client) : M unit := fun w => (Normal tt, setClient w c cl).

Definition modifyClient (c : nat) (f : Client -> Client) : M unit :=
  cl ← load c; store c (f cl).

Definition newBool (b : bool) : M nat := fun w =>
  (Normal (w_next w), mkWorld (w_clients w) (<[w_next w := b]> (w_bools w)) (S (w_next w))
                         (w_checkRedirect w) (w_log w)).

Definition readBool (a : nat) : M bool := fun w =>
  (Normal (default false (w_bools w !! a)), w).

Definition writeBool (a : nat) (b : bool) : M unit := fun w =>
  (Normal tt, mkWorld (w_clients w) (<[a := b]> (w_bools w)) (w_next w)
                (w_checkRedirect w) (w_log w)).

Definition getCheckRedirect : M (option RedirectPolicy) := fun w =>
  (Normal (w_checkRedirect w), w).

Definition setCheckRedirect (p : RedirectPolicy) : M unit := fun w =>
  (Normal tt, mkWorld (w_clients w) (w_bools w) (w_next w) (Some p) (w_log w)).

(** [t.Errorf(format, args...)] *)
Definition errorf (format : gostr) (args : list Arg) : M unit := fun w =>
  (Normal tt, mkWorld (w_clients w) (w_bools w) (w_next w) (w_checkRedirect w)
                (w_log w ++ [mkReport format args])).

(** [t.FailNow()] *)
Definition failNowT (t : Tester) : M unit :=
  if t_failNowHalts t then goexit else mret tt.

(** [args[i]] *)
Definition index {A} (l : list A) (i : nat) : M A :=
  match l !! i with
  | Some x => mret x
  | None => panic (lit "runtime error: index out of range")
  end.

(** ** client.go: the builder *)

Section ClientModel.
Context {GL : GoLib}.

(** [const UserAgent], [const ContentTypeApplicationJson], and the initial
    value of [var DefaultContentType]. *)
Definition UserAgent : gostr := lit "test-http-request".
Definition ContentTypeApplicationJson : gostr := lit "application/json".
Definition DefaultContentType : gostr := ContentTypeApplicationJson.

(** [http.Header.Set], [Add] and [Get]; [url.Values.Add]. *)
Definition hset (h : HttpHeader) (k v : gostr) : HttpHeader :=
  <[canonicalMIMEHeaderKey k := [v]]> h.
Definition hadd (h : HttpHeader) (k v : gostr) : HttpHeader :=
  <[canonicalMIMEHeaderKey k := default [] (h !! canonicalMIMEHeaderKey k) ++ [v]]> h.
Definition hget (h : HttpHeader) (k : gostr) : gostr :=
  match h !! canonicalMIMEHeaderKey k with Some (v :: _) => v | _ => [] end.
Definition valuesAdd (f : Values) (k v : gostr) : Values :=
  <[k := default [] (f !! k) ++ [v]]> f.

(** [len(c.form)] *)
Definition formLen (f : option Values) : nat :=
  match f with None => 0%nat | Some m => size m end.

Definition errOf {A} (r : result A) : option GoError :=
  match r with Ok _ => None | Err e => Some e end.

Definition alloc (cl : Client) : M nat := fun w =>
  (Normal (w_next w), mkWorld (<[w_next w := cl]> (w_clients w)) (w_bools w) (S (w_next w))
                         (w_checkRedirect w) (w_log w)).

(** [func New(t TestingT) *Client] *)
Definition New (t : Tester) : M nat :=
  let h := hset (hset ∅ (lit "Accept") (lit "application/json")) (lit "User-Agent") UserAgent in
  alloc (mkClient t (lit "GET") (lit "/") h None None Background 0 None []).

(** [func (c *Client) failNow(format string, args ...interface{})] *)
Definition failNow (c : nat) (format : gostr) (args : list Arg) : M unit :=
  modifyClient c (set_err (Some (Errorf format args)));;
  cl ← load c;
  errorf format args;;
  failNowT (c_t cl).

(** [func (c *Client) hasError(err error) bool] *)
Definition hasError (c : nat) (err : option GoError) : M bool :=
  match err with
  | Some e =>
      modifyClient c (set_err (Some e));;
      failNow c (lit "Expected no error, got %v") [AErr e];;
      mret true
  | None => mret false
  end.

Definition Context (c : nat) (ctx : Ctx) : M nat :=
  modifyClient c (set_context ctx);; mret c.

Definition ExpectedStatusCode (c : nat) (status : Z) : M nat :=
  if (300 <=? status) && (status <? 400) then
    failNow c (lit "misuse of ExpectedStatusCode(%d), use ExpectRedirectTo instead") [AInt status];;
    mret c
  else
    modifyClient c (set_expectedStatus status);; mret c.

Definition ExpectRedirectTo (c : nat) (path : gostr) : M nat :=
  modifyClient c (set_expectRedirectPath path);; mret c.

Definition Method (c : nat) (method : gostr) : M nat :=
  modifyClient c (set_method method);; mret c.

Definition URL (c : nat) (url : gostr) (args : list Arg) : M nat :=
  modifyClient c (set_url (sprintf url args));; mret c.

Definition Post (c : nat) (url : gostr) (args : list Arg) : M nat :=
  c' ← Method c (lit "POST"); URL c' url args.
Definition Put (c : nat) (url : gostr) (args : list Arg) : M nat :=
  c' ← Method c (lit "PUT"); URL c' url args.
Definition Patch (c : nat) (url : gostr) (args : list Arg) : M nat :=
  c' ← Method c (lit "PATCH"); URL c' url args.
Definition Get (c : nat) (url : gostr) (args : list Arg) : M nat :=
  c' ← Method c (lit "GET"); URL c' url args.
Definition Delete (c : nat) (url : gostr) (args : list Arg) : M nat :=
  c' ← Method c (lit "DELETE"); URL c' url args.

(** [for _, v := range moreValues { c.header.Add(name, v) }] *)
Fixpoint headerAddAll (c : nat) (name : gostr) (vs : list gostr) : M unit :=
  match vs with
  | [] => mret tt
  | v :: vs' =>
      modifyClient c (fun cl => set_header (hadd (c_header cl) name v) cl);;
      headerAddAll c name vs'
  end.

Definition Header (c : nat) (name value : gostr) (moreValues : list gostr) : M nat :=
  modifyClient c (fun cl => set_header (hset (c_header cl) name value) cl);;
  headerAddAll c name moreValues;;
  mret c.

(** [for i := 0; i < len(args); i += 2 { c.form.Add(args[i], args[i+1]) }];
    [fuel] bounds the iterations ([FormData] passes more than enough). *)
Fixpoint formAddLoop (fuel : nat) (c : nat) (args : list gostr) (i : nat) : M unit :=
  match fuel with
  | O => noFuel
  | S f =>
      if (i <? length args)%nat then
        k ← index args i;
        v ← index args (S i);
        modifyClient c (fun cl => set_form (Some (valuesAdd (default ∅ (c_form cl)) k v)) cl);;
        formAddLoop f c args (S (S i))
      else mret tt
  end.

Definition FormData (c : nat) (args : list gostr) : M nat :=
  (if Nat.odd (length args) then
     failNow c (lit "Incorrect number of parameters %d items, missed pair")
       [AInt (Z.of_nat (length args))]
   else mret tt);;
  cl ← load c;
  (match c_form cl with None => modifyClient c (set_form (Some ∅)) | Some _ => mret tt end);;
  formAddLoop (S (length args)) c args 0;;
  cl ← load c;
  modifyClient c (set_body (Some (encodeValues (default ∅ (c_form cl)))));;
  mret c.

Definition ClearHeaders (c : nat) : M nat :=
  modifyClient c (set_header ∅);; mret c.

Definition BodyBytes (c : nat) (body : gostr) : M nat :=
  modifyClient c (set_body (Some body));; mret c.

(** [func (c *Client) BodyJSON(payload interface{}) *Client]; [None] is
    the nil interface. *)
Definition BodyJSON (c : nat) (payload : option Payload) : M nat :=
  match payload with
  | None =>
      failNow c (lit "payload to send is nil") [];;
      modifyClient c (set_err (Some ErrNilBodyJSON));;
      mret c
  | Some p =>
      let r := jsonMarshal p in
      hasError c (errOf r) ≫= λ failed : bool,
      if failed then mret c
      else BodyBytes c (match r with Ok buf => buf | Err _ => [] end)
  end.

Definition BodyString (c : nat) (body : gostr) : M nat := BodyBytes c body.

(** [func (c *Client) buildRequest(baseURL string) *http.Request]; the
    request's header map is the builder's own ([req.Header = c.header]), so
    setting the content type there also changes the builder's header. *)
Definition buildRequest (c : nat) (baseURL : gostr) : M (option Request) :=
  cl ← load c;
  match c_err cl with
  | Some _ => mret None
  | None =>
      let urlPath := joinPath baseURL (c_url cl) in
      (if bool_decide (0 < formLen (c_form cl))%nat && bool_decide (c_method cl = [])
       then _ ← Method c (lit "POST"); mret tt else mret tt);;
      cl ← load c;
      let r := newRequestWithContext (c_context cl) (c_method cl) urlPath (c_body cl) in
      hasError c (errOf r) ≫= λ failed : bool,
      if failed then mret None else
      match r with
      | Err _ => mret None
      | Ok req =>
          cl ← load c;
          let h := c_header cl in
          let h' :=
            if bool_decide (0 < formLen (c_form cl))%nat
            then hset h (lit "Content-Type") (lit "application/x-www-form-urlencoded")
            else if bool_decide (is_Some (c_body cl)) && bool_decide (hget h (lit "Content-Type") = [])
            then hset h (lit "Content-Type") DefaultContentType
            else h in
          modifyClient c (set_header h');;
          mret (Some (mkRequest (rq_method req) (rq_url req) (rq_path req) (rq_body req) h'))
      end
  end.

Definition BuildRequest (c : nat) : M (option Request) := buildRequest c [].

(** ** The transport: [http.Client.Do] of net/http

    The redirect loop of [http.Client.Do] for [server.Client()].  A
    response is followed when its status is 301, 302, 303, 307 or 308 and
    it carries a [Location] (given here as an absolute path, which becomes
    [req.URL.Path] of the next hop).  Before each hop the client's
    [CheckRedirect] is consulted with the next request and the requests
    made so far; with no [CheckRedirect] set, net/http's
    [defaultCheckRedirect] refuses the hop once 10 requests were made. *)
Definition isRedirectStatus (s : Z) : bool :=
  (s =? 301) || (s =? 302) || (s =? 303) || (s =? 307) || (s =? 308).

(** [redirectBehavior]: 307/308 keep method and body; 301/302/303 switch
    to GET (unless GET or HEAD) and drop the body. *)
Definition redirectRequest (req : Request) (status : Z) (loc : gostr) : Request :=
  if (status =? 307) || (status =? 308) then
    mkRequest (rq_method req) loc loc (rq_body req) (rq_header req)
  else
    let m := rq_method req in
    mkRequest (if bool_decide (m = lit "GET") || bool_decide (m = lit "HEAD") then m else lit "GET")
      loc loc None (rq_header req).

(** [c.checkRedirect(req, via)]; the [DoCheck] case is the closure that
    [Do] installs (its [fmt.Println("Redirected to:", req.URL)] only writes
    to standard output). *)
Definition checkRedirect (req : Request) (via : list Request) : M (option GoError) :=
  pol ← getCheckRedirect;
  match pol with
  | None =>
      mret (if (10 <=? length via)%nat then Some (ErrorsNew (lit "stopped after 10 redirects"))
            else None)
  | Some (UserCheck f) => mret (f req via)
  | Some (DoCheck c wasRedirected) =>
      cl ← load c;
      if negb (bool_decide (rq_path req = c_expectRedirectPath cl)) then
        failNow c (lit "expected to redirect path '%s', actual path '%s'")
          [AStr (c_expectRedirectPath cl); AStr (rq_path req)];;
        cl ← load c;
        mret (Some (Errorf (lit "expected to redirect path '%s', actual path '%s'")
                      [AStr (c_expectRedirectPath cl); AStr (rq_path req)]))
      else
        writeBool wasRedirected true;;
        mret None
  end.

(** The loop of [http.Client.do]; [fuel] bounds the number of requests
    sent, and running out of it stands for a loop that does not end. A
    refused hop yields a [*url.Error] for the first request's method and
    the refused [Location]. *)
Fixpoint follow (fuel : nat) (server : Server) (req : Request) (via : list Request)
    : M (result Response) :=
  match fuel with
  | O => noFuel
  | S f =>
      match srv_handler server req with
      | RNetErr e => mret (Err (UrlError (rq_method (default req (head via))) (rq_url req) e))
      | RStatus st (Some loc) body =>
          if isRedirectStatus st then
            let next := redirectRequest req st loc in
            let via' := via ++ [req] in
            e ← checkRedirect next via';
            match e with
            | Some err => mret (Err (UrlError (rq_method (default req (head via'))) loc err))
            | None => follow f server next via'
            end
          else mret (Ok (mkResponse st body))
      | RStatus st None body => mret (Ok (mkResponse st body))
      end
  end.

Definition clientDo (fuel : nat) (server : Server) (req : Request) : M (result Response) :=
  follow fuel server req [].

(** [func (c *Client) Do(server *httptest.Server) *http.Response] *)
Definition Do (fuel : nat) (c : nat) (server : Server) : M (option Response) :=
  oreq ← buildRequest c (srv_URL server);
  match oreq with
  | None => mret None
  | Some req =>
      wasRedirected ← newBool false;
      pol ← getCheckRedirect;
      (match pol with
       | None => setCheckRedirect (DoCheck c wasRedirected)
       | Some _ => mret tt
       end);;
      r ← clientDo fuel server req;
      hasError c (errOf r) ≫= λ failed : bool,
      if failed then mret None else
      match r with
      | Err _ => mret None
      | Ok resp =>
          cl ← load c;
          readBool wasRedirected ≫= λ wr : bool,
          if negb (bool_decide (c_expectRedirectPath cl = [])) && negb wr then
            failNow c (lit "expected to redirect path '%s' but no redirection happened")
              [AStr (c_expectRedirectPath cl)];;
            mret None
          else if (c_expectedStatus cl =? 0) && (400 <=? resp_status resp) then
            failNow c (lit "expected success, got %d") [AInt (resp_status resp)];;
            mret None
          else if (0 <? c_expectedStatus cl) && negb (c_expectedStatus cl =? resp_status resp) then
            failNow c (lit "expected %d, got %d") [AInt (c_expectedStatus cl); AInt (resp_status resp)];;
            mret None
          else
            (if t_isFakeTester (c_t cl) then failNow c (lit "ASSERTION NOT MET") [] else mret tt);;
            mret (Some resp)
      end
  end.

(** The chainable builder operations, for statements about all of them. *)
Inductive BuilderOp :=
  | OpContext (ctx : Ctx)
  | OpExpectedStatusCode (status : Z)
  | OpExpectRedirectTo (path : gostr)
  | OpMethod (method : gostr)
  | OpURL (url : gostr) (args : list Arg)
  | OpPost (url : gostr) (args : list Arg)
  | OpPut (url : gostr) (args : list Arg)
  | OpPatch (url : gostr) (args : list Arg)
  | OpGet (url : gostr) (args : list Arg)
  | OpDelete (url : gostr) (args : list Arg)
  | OpHeader (name value : gostr) (moreValues : list gostr)
  | OpFormData (args : list gostr)
  | OpClearHeaders
  | OpBodyBytes (body : gostr)
  | OpBodyJSON (payload : option Payload)
  | OpBodyString (body : gostr).

Definition runOp (c : nat) (op : BuilderOp) : M nat :=
  match op with
  | OpContext ctx => Context c ctx
  | OpExpectedStatusCode s => ExpectedStatusCode c s
  | OpExpectRedirectTo p => ExpectRedirectTo c p
  | OpMethod m => Method c m
  | OpURL u a => URL c u a
  | OpPost u a => Post c u a
  | OpPut u a => Put c u a
  | OpPatch u a => Patch c u a
  | OpGet u a => Get c u a
  | OpDelete u a => Delete c u a
  | OpHeader n v more => Header c n v more
  | OpFormData a => FormData c a
  | OpClearHeaders => ClearHeaders c
  | OpBodyBytes b => BodyBytes c b
  | OpBodyJSON p => BodyJSON c p
  | OpBodyString b => BodyString c b
  end.

(** A chain of builder calls [c.Op1(...).Op2(...)...]. *)
Fixpoint runOps (c : nat) (ops : list BuilderOp) : M nat :=
  match ops with
  | [] => mret c
  | op :: ops' => c' ← runOp c op; runOps c' ops'
  end.

End ClientModel.

(** ** A concrete library and server for examples

    The library functions are kept simple: the server's base URL is empty,
    so the request URL and its path coincide. *)
Definition toyLib : GoLib := {|
  canonicalMIMEHeaderKey := fun k => k;
  encodeValues := fun _ => [];
  sprintf := fun u _ => u;
  newRequestWithContext := fun _ m u b => Ok (mkRequest m u u b ∅);
  Payload := unit;
  jsonMarshal := fun _ => Ok (lit "{}") |}.

Definition emptyWorld : World := mkWorld ∅ ∅ 0 None [].

(** The same library, except that a method containing a space is refused
    as [http.NewRequestWithContext] refuses an invalid method. *)
Definition methodCheckingLib : GoLib := {|
  canonicalMIMEHeaderKey := fun k => k;
  encodeValues := fun _ => [];
  sprintf := fun u _ => u;
  newRequestWithContext := fun _ m u b =>
    if existsb (fun ch => bool_decide (ch = " "%char)) m
    then Err (Errorf (lit "net/http: invalid method %q") [AStr m])
    else Ok (mkRequest m u u b ∅);
  Payload := unit;
  jsonMarshal := fun _ => Ok (lit "{}") |}.

(** A server that cannot be reached. *)
Definition downServer : Server :=
  mkServer [] (fun _ => RNetErr (ErrorsNew (lit "connection refused"))).

(** A handler that redirects every path but [target] to [target]. *)
Definition redirectingServer (target : gostr) : Server :=
  mkServer [] (fun req =>
    if bool_decide (rq_path req = target) then RStatus 200 None (lit "done")
    else RStatus 303 (Some target) []).

(** A handler that answers every request with [status]. *)
Definition statusServer (status : Z) : Server :=
  mkServer [] (fun _ => RStatus status None []).

(** A handler that redirects every request to [target]. *)
Definition loopServer (target : gostr) : Server :=
  mkServer [] (fun _ => RStatus 303 (Some target) []).

(** A builder whose error is set by [BodyJSON(nil)], then changed by
    [Method] and [ExpectedStatusCode]; the builder before and after. *)
Definition stickyScenario : M (Client * Client) :=
  c ← New (GL := toyLib) FakeTester;
  _ ← BodyJSON (GL := toyLib) c None;
  before ← load c;
  _ ← Method c (lit "POST");
  _ ← ExpectedStatusCode c 302;
  after ← load c;
  mret (before, after).

(** The rest of [Do] once [client.Do(req)] returned, with [wasRedirected]
    the address of the flag. *)
Definition doAfter (c : nat) (wasRedirected : nat) (r : result Response) : M (option Response) :=
  hasError c (errOf r) ≫= λ failed : bool,
  if failed then mret None else
  match r with
  | Err _ => mret None
  | Ok resp =>
      cl ← load c;
      readBool wasRedirected ≫= λ wr : bool,
      if negb (bool_decide (c_expectRedirectPath cl = [])) && negb wr then
        failNow c (lit "expected to redirect path '%s' but no redirection happened")
          [AStr (c_expectRedirectPath cl)];;
        mret None
      else if (c_expectedStatus cl =? 0) && (400 <=? resp_status resp) then
        failNow c (lit "expected success, got %d") [AInt (resp_status resp)];;
        mret None
      else if (0 <? c_expectedStatus cl) && negb (c_expectedStatus cl =? resp_status resp) then
        failNow c (lit "expected %d, got %d") [AInt (c_expectedStatus cl); AInt (resp_status resp)];;
        mret None
      else
        (if t_isFakeTester (c_t cl) then failNow c (lit "ASSERTION NOT MET") [] else mret tt);;
        mret (Some resp)
  end.

(** The world once [Do] allocated [wasRedirected := false] and installed
    its closure if the server's client had no [CheckRedirect]. *)
Definition installed (c : nat) (w : World) : World :=
  mkWorld (w_clients w) (<[w_next w := false]> (w_bools w)) (S (w_next w))
    (Some (default (DoCheck c (w_next w)) (w_checkRedirect w))) (w_log w).

(** The report a successful [Do] still makes when self testing. *)
Definition selfTestReports (t : Tester) : list Report :=
  if t_isFakeTester t then [mkReport (lit "ASSERTION NOT MET") []] else [].

(** The reports after a first [failNow]: a tester whose [FailNow] returns
    also receives the later ones. *)
Definition thenIfReturns (t : Tester) (later : list Report) : list Report :=
  if t_failNowHalts t then [] else later.

(** A builder for [GET /loop] that expects the redirect to [/loop]. *)
Definition loopWorld : World :=
  snd ((c ← New (GL := toyLib) TestingT;
        c ← Get (GL := toyLib) c (lit "/loop") [];
        ExpectRedirectTo c (lit "/loop")) emptyWorld).


(** The builder at [c], or a zero builder. *)
Definition clientAt (w : World) (c : nat) : Client :=
  default (mkClient TestingT [] [] ∅ None None Background 0 None []) (w_clients w !! c).

(** The request [buildRequest] returned, or an empty one. *)
Definition builtReq (o : Outcome (option Request)) : Request :=
  match o with Normal (Some r) => r | _ => mkRequest [] [] [] None ∅ end.

(** A fresh builder with a self tester, and one for [GET /start]
    expecting the redirect to [/redirected]. *)
Definition fakeWorld : World := snd (New (GL := toyLib) FakeTester emptyWorld).

Definition startWorld (t : Tester) (expect : gostr) : World :=
  snd ((c ← New (GL := toyLib) t;
        c ← Get (GL := toyLib) c (lit "/start") [];
        ExpectRedirectTo c expect) emptyWorld).

(** A builder for [GET /start] that expects the redirect to [/redirected]
    and then status 201. *)
Definition redirectStatusWorld : World :=
  snd ((c ← New (GL := toyLib) TestingT;
        c ← Get (GL := toyLib) c (lit "/start") [];
        c ← ExpectRedirectTo c (lit "/redirected");
        ExpectedStatusCode c 201) emptyWorld).

(** Shifted match positions, for the proofs about the matcher. *)
Definition shiftM (k : nat) (ms : list (list nat)) : list (list nat) :=
  map (map (Nat.add k)) ms.

Definition shiftSt (k : nat) (st : scanState) : scanState :=
  match st with
  | SIdle => SIdle
  | SDollar p => SDollar (k + p)%nat
  | STok p => STok (k + p)%nat
  end.

Definition wellFormedMatches (ms : list (list nat)) : Prop :=
  Forall (fun v => exists a b c d, v = [a; b; c; d]) ms.

(** Builder [c] has a recorded error; [m] keeps [P]; the result of a
    call that ends in [t.FailNow()]. *)
Definition errSet (c : nat) (w : World) : Prop :=
  exists cl, w_clients w !! c = Some cl /\ c_err cl <> None.

Definition preserves {A} (P : World -> Prop) (m : M A) : Prop :=
  forall w, P w -> P (snd (m w)).

Definition afterFailNow {A} (t : Tester) (v : A) : Outcome A :=
  if t_failNowHalts t then Goexit else Normal v.

(** [c.form.Add(args[i], args[i+1])] for each pair of [args], in order. *)
Fixpoint addPairs (f : Values) (args : list gostr) : Values :=
  match args with
  | k :: v :: rest => addPairs (valuesAdd f k v) rest
  | _ => f
  end.

(** The method [buildRequest] sends: POST when the form is non-empty and
    no method is set. *)
Definition sentMethod (cl : Client) : gostr :=
  if bool_decide (0 < formLen (c_form cl))%nat && bool_decide (c_method cl = [])
  then lit "POST" else c_method cl.

(** The header [buildRequest] sends (and writes back into the builder). *)
Definition sentHeader `{GoLib} (cl : Client) : HttpHeader :=
  let h := c_header cl in
  if bool_decide (0 < formLen (c_form cl))%nat
  then hset h (lit "Content-Type") (lit "application/x-www-form-urlencoded")
  else if bool_decide (is_Some (c_body cl)) && bool_decide (hget h (lit "Content-Type") = [])
  then hset h (lit "Content-Type") DefaultContentType
  else h.

(** [req.Header = h] *)
Definition withHeader (r : Request) (h : HttpHeader) : Request :=
  mkRequest (rq_method r) (rq_url r) (rq_path r) (rq_body r) h.

(* ================================================================== *)
(** * Proofs *)

(** ** The matcher and the replacement loop *)

Lemma substr_app (p s : gostr) (a b : nat) :
  substr (p ++ s) (length p + a) (length p + b) = substr s a b.
Proof.
  unfold substr. rewrite drop_app_add.
  by replace (length p + b - (length p + a))%nat with (b - a)%nat by lia.
Qed.

Lemma groupsOf_shift (p s : gostr) (v : list nat) :
  groupsOf (p ++ s) (map (Nat.add (length p)) v) = groupsOf s v.
Proof.
  cut (groupsOf (p ++ s) (map (Nat.add (length p)) v) = groupsOf s v /\
       forall x, groupsOf (p ++ s) (map (Nat.add (length p)) (x :: v)) = groupsOf s (x :: v)).
  { tauto. }
  induction v as [|a v [IH1 IH2]]; simpl; split; try done.
  - apply IH2.
  - intros x. rewrite IH1. by rewrite substr_app.
Qed.

Lemma replLoop_acc (str : gostr) repl (ms : list (list nat)) :
  forall (acc : gostr) (last : nat),
  replLoop str repl acc last ms = acc ++ replLoop str repl [] last ms.
Proof.
  induction ms as [|v ms IH]; intros acc last; simpl; [done|].
  rewrite (IH (acc ++ _)), (IH (substr _ _ _ ++ _)). by rewrite <- !app_assoc.
Qed.

Lemma replLoop_shift (p s : gostr) repl (ms : list (list nat)) :
  wellFormedMatches ms -> forall last : nat,
  replLoop (p ++ s) repl [] (length p + last) (shiftM (length p) ms)
  = replLoop s repl [] last ms.
Proof.
  induction 1 as [|v ms [a [b [c [d ->]]]] _ IH]; intros last; simpl.
  - by rewrite drop_app_add.
  - rewrite replLoop_acc, (replLoop_acc s). rewrite IH.
    rewrite substr_app.
    pose proof (groupsOf_shift p s [a; b; c; d]) as G. simpl in G. by rewrite G.
Qed.

Lemma replLoop_cons (c : ascii) (s : gostr) repl (ms : list (list nat)) :
  wellFormedMatches ms ->
  replLoop (c :: s) repl [] 0 (shiftM 1 ms) = c :: replLoop s repl [] 0 ms.
Proof.
  intros WF. destruct WF as [|v ms [a [b [c' [d ->]]]] WF]; simpl; [done|].
  rewrite replLoop_acc, (replLoop_acc s).
  pose proof (replLoop_shift [c] s repl ms WF b) as SH. simpl in SH. rewrite SH.
  pose proof (groupsOf_shift [c] s [a; b; c'; d]) as G. simpl in G. rewrite G.
  unfold substr. simpl. by rewrite !Nat.sub_0_r.
Qed.

Lemma replLoop_token (w rest : gostr) repl (ms : list (list nat)) :
  wellFormedMatches ms ->
  replLoop ("$"%char :: w ++ rest) repl [] 0
    ([0; S (length w); 1; S (length w)] :: shiftM (S (length w)) ms)%nat
  = repl ["$"%char :: w; w] ++ replLoop rest repl [] 0 ms.
Proof.
  intros WF. simpl. rewrite replLoop_acc.
  pose proof (replLoop_shift ("$"%char :: w) rest repl ms WF 0) as SH.
  simpl in SH. rewrite Nat.add_0_r in SH. rewrite SH.
  unfold substr. simpl. rewrite !Nat.sub_0_r, drop_0, !take_app_length. done.
Qed.

Lemma idleStep_shift (c : ascii) (k off : nat) :
  idleStep c (k + off) = shiftSt k (idleStep c off).
Proof. unfold idleStep. by destruct (isDollar c). Qed.

Lemma findAllFrom_shift (s : gostr) :
  forall (k off : nat) (st : scanState),
  findAllFrom s (k + off) (shiftSt k st) = shiftM k (findAllFrom s off st).
Proof.
  induction s as [|c s IH]; intros k off st.
  - destruct st; simpl; try done. unfold shiftM. simpl. repeat f_equal; lia.
  - destruct st as [|p|p]; simpl.
    + rewrite <- IH, idleStep_shift. f_equal; lia.
    + destruct (isWordByte c).
      * rewrite <- (IH k (S off) (STok p)). f_equal; lia.
      * rewrite <- IH, idleStep_shift. f_equal; lia.
    + destruct (isWordByte c).
      * rewrite <- (IH k (S off) (STok p)). f_equal; lia.
      * unfold shiftM. simpl. fold (shiftM k (findAllFrom s (S off) (idleStep c off))).
        rewrite <- IH, idleStep_shift. repeat f_equal; lia.
Qed.

Lemma findAllFrom_idle (s : gostr) (off : nat) :
  findAllFrom s off SIdle = shiftM off (findAllSubmatchIndex s).
Proof.
  unfold findAllSubmatchIndex. rewrite <- findAllFrom_shift. simpl.
  by rewrite Nat.add_0_r.
Qed.

Lemma findAllFrom_dollar_nonword (s : gostr) (off p : nat) :
  startsWord s = false -> findAllFrom s off (SDollar p) = findAllFrom s off SIdle.
Proof. destruct s as [|c s]; simpl; [done|]. intros ->. done. Qed.

Lemma findAllFrom_tok_word (w rest : gostr) :
  Forall (fun c => isWordByte c = true) w -> forall off p : nat,
  findAllFrom (w ++ rest) off (STok p) = findAllFrom rest (off + length w) (STok p).
Proof.
  induction 1 as [|c w Hc _ IH]; intros off p; simpl.
  - by rewrite Nat.add_0_r.
  - rewrite Hc, IH. f_equal; lia.
Qed.

Lemma findAllFrom_tok_end (rest : gostr) (off p : nat) :
  startsWord rest = false ->
  findAllFrom rest off (STok p) = [p; off; S p; off] :: findAllFrom rest off SIdle.
Proof. destruct rest as [|c r]; simpl; [done|]. intros ->. done. Qed.

Lemma findAllFrom_wf (s : gostr) :
  forall (off : nat) (st : scanState), wellFormedMatches (findAllFrom s off st).
Proof.
  unfold wellFormedMatches.
  induction s as [|c s IH]; intros off st; simpl.
  - destruct st; repeat constructor. eauto 10.
  - destruct st; [apply IH| |]; destruct (isWordByte c); try apply IH.
    constructor; [eauto 10 | apply IH].
Qed.

Lemma wordPrefix_afterWord (s : gostr) : s = wordPrefix s ++ afterWord s.
Proof. induction s as [|c s IH]; simpl; [done|]. destruct (isWordByte c); simpl; congruence. Qed.

Lemma wordPrefix_word (s : gostr) : Forall (fun c => isWordByte c = true) (wordPrefix s).
Proof.
  induction s as [|c s IH]; simpl; [constructor|].
  destruct (isWordByte c) eqn:E; constructor; done.
Qed.

Lemma afterWord_nonword (s : gostr) : startsWord (afterWord s) = false.
Proof.
  induction s as [|c s IH]; simpl; [done|].
  destruct (isWordByte c) eqn:E; simpl; [done|]. done.
Qed.

Section ExpandProofs.
Variable Val : Type.
Variable fmtV : Val -> gostr.
Variable asStringMap : Val -> option (gostr -> option Val).

Lemma atoi_word (d : ascii) (r : gostr) :
  isWordByte d = true -> atoi (d :: r) = parsesAsIndex (d :: r).
Proof.
  destruct d as [b0 b1 b2 b3 b4 b5 b6 b7].
  destruct b0, b1, b2, b3, b4, b5, b6, b7; simpl; intros H;
    try discriminate; reflexivity.
Qed.

Lemma digitsValueAcc_nonneg (s : gostr) :
  forall acc n : Z, 0 <= acc -> digitsValueAcc acc s = Some n -> 0 <= n.
Proof.
  induction s as [|c s IH]; simpl; intros acc n Hacc H.
  - injection H; lia.
  - destruct (_ && _) eqn:E; [|discriminate].
    apply andb_true_iff in E as [E1 E2]. apply Z.leb_le in E1.
    eapply IH; [|exact H]. lia.
Qed.

Lemma expandRepl_token (args : list Val) (d : ascii) (w : gostr) :
  isWordByte d = true ->
  expandRepl Val fmtV asStringMap args ["$"%char :: d :: w; d :: w]
  = render_ref Val fmtV asStringMap args (d :: w).
Proof.
  intros Hd. unfold expandRepl, render_ref. simpl nth.
  rewrite (atoi_word d w Hd).
  destruct (parsesAsIndex (d :: w)) as [i|] eqn:P.
  - assert (0 <= i) as Hi.
    { unfold parsesAsIndex, digitsValue in P.
      destruct (digitsValueAcc 0 (d :: w)) as [n|] eqn:D; [|discriminate].
      destruct (n <? 2 ^ 63); [|discriminate]. injection P as <-.
      eapply digitsValueAcc_nonneg; [|exact D]. lia. }
    destruct (i <? Z.of_nat (length args)) eqn:L.
    + apply Z.ltb_lt in L.
      destruct (lookup_lt_is_Some_2 args (Z.to_nat i)) as [a Ha]; [lia|].
      rewrite Ha. replace ((i <? 0) || (i >=? Z.of_nat (length args))) with false.
      * done.
      * symmetry. apply orb_false_iff. split; [apply Z.ltb_ge | rewrite Z.geb_leb; apply Z.leb_gt]; lia.
    + apply Z.ltb_ge in L.
      rewrite (lookup_ge_None_2 args (Z.to_nat i)) by lia.
      replace ((i <? 0) || (i >=? Z.of_nat (length args))) with true; [done|].
      symmetry. apply orb_true_iff. right. rewrite Z.geb_leb. apply Z.leb_le. lia.
  - destruct args as [|a [|b l]]; done.
Qed.

Lemma expand_loop (args : list Val) (fuel : nat) :
  forall s : gostr, (length s <= fuel)%nat ->
  replaceAllStringSubMatchFunc s (expandRepl Val fmtV asStringMap args)
  = expand_ref Val fmtV asStringMap fuel args s.
Proof.
  unfold replaceAllStringSubMatchFunc.
  induction fuel as [|fuel IH]; intros s Hlen.
  - destruct s; simpl in *; [done|lia].
  - destruct s as [|c s']; [done|]. simpl in Hlen. simpl expand_ref.
    destruct (isDollar c && startsWord s') eqn:T.
    + apply andb_true_iff in T as [Hc Hw].
      unfold isDollar in Hc. apply bool_decide_eq_true in Hc. subst c.
      pose proof (wordPrefix_afterWord s') as Hs.
      pose proof (wordPrefix_word s') as Hword.
      pose proof (afterWord_nonword s') as Hrest.
      destruct (wordPrefix s') as [|d w'] eqn:Wp.
      { destruct s' as [|c0 s0]; [discriminate|]. simpl in Wp, Hw.
        rewrite Hw in Wp. discriminate. }
      inversion Hword as [|? ? Hd Hw']; subst.
      remember (afterWord s') as r eqn:Er. clear Er.
      rewrite Hs in Hlen |- *. unfold findAllSubmatchIndex. simpl.
      rewrite Hd, findAllFrom_tok_word by done.
      rewrite findAllFrom_tok_end by done. rewrite findAllFrom_idle.
      replace (2 + length w')%nat with (S (length (d :: w'))) by (simpl; lia).
      change (d :: w' ++ r) with ((d :: w') ++ r).
      rewrite replLoop_token by apply findAllFrom_wf.
      rewrite expandRepl_token by done. f_equal.
      apply IH. rewrite length_app in Hlen. simpl in Hlen. lia.
    + unfold findAllSubmatchIndex. simpl.
      assert (findAllFrom s' 1 (idleStep c 0) = findAllFrom s' 1 SIdle) as E.
      { unfold idleStep. destruct (isDollar c) eqn:Hc; [|done].
        apply findAllFrom_dollar_nonword. simpl in T. done. }
      rewrite E, findAllFrom_idle, replLoop_cons by apply findAllFrom_wf.
      f_equal. apply IH. lia.
Qed.

Lemma expand_ref_notoken (args : list Val) (fuel : nat) :
  forall s : gostr, hasToken s = false ->
  expand_ref Val fmtV asStringMap fuel args s = s.
Proof.
  induction fuel as [|fuel IH]; intros s H; [done|].
  destruct s as [|c s']; simpl in *; [done|].
  apply orb_false_iff in H as [H1 H2]. rewrite H1. f_equal. by apply IH.
Qed.

(** C9: [expandStr] equals the reference substitution semantics
    [expandStr_ref] on every template and argument list: a numeric name
    [i] renders argument [i] with [%v] when [0 <= i < len(args)] and
    [[bad_index:$i]] otherwise; a non-numeric name is looked up in a
    single string-keyed map argument ([%v] of the value, or
    [[no_key:$name]] when absent) and renders [[no_key:$name]] in every
    other case; all other text is kept in order.  In particular a
    template without tokens (e.g. the empty one) is returned unchanged. *)
Theorem expandStr_matches_reference (msg : gostr) (args : list Val) :
  expandStr Val fmtV asStringMap msg args = expandStr_ref Val fmtV asStringMap msg args
  /\ (hasToken msg = false -> expandStr Val fmtV asStringMap msg args = msg).
Proof.
  assert (E : expandStr Val fmtV asStringMap msg args
              = expandStr_ref Val fmtV asStringMap msg args).
  { unfold expandStr, expandStr_ref. by apply expand_loop. }
  split; [exact E|]. intros H. rewrite E. by apply expand_ref_notoken.
Qed.
End ExpandProofs.

(** ** replaceAllStringSubMatchFunc, one step at a time *)

(** X1: [replaceAllStringSubMatchFunc] works left to right: a character
    that does not open a token ([$] followed by a word character) is
    copied, and a token [$w] with a maximal run [w] of word characters is
    replaced by [repl] of its groups [["$w"; "w"]], the rest being
    processed the same way. *)
Theorem replaceAll_steps (repl : list gostr -> gostr) :
  (forall (c : ascii) (s : gostr), isDollar c && startsWord s = false ->
     replaceAllStringSubMatchFunc (c :: s) repl = c :: replaceAllStringSubMatchFunc s repl) /\
  (forall (w rest : gostr), w <> [] -> Forall (fun c => isWordByte c = true) w ->
     startsWord rest = false ->
     replaceAllStringSubMatchFunc ("$"%char :: w ++ rest) repl
     = repl ["$"%char :: w; w] ++ replaceAllStringSubMatchFunc rest repl).
Proof.
  unfold replaceAllStringSubMatchFunc. split.
  - intros c s T. unfold findAllSubmatchIndex. simpl.
    assert (findAllFrom s 1 (idleStep c 0) = findAllFrom s 1 SIdle) as E.
    { unfold idleStep. destruct (isDollar c) eqn:Hc; [|done].
      apply findAllFrom_dollar_nonword. simpl in T. done. }
    rewrite E, findAllFrom_idle, replLoop_cons by apply findAllFrom_wf. reflexivity.
  - intros w rest Hne Hword Hrest. destruct w as [|d w']; [done|].
    inversion Hword as [|? ? Hd Hw']; subst.
    unfold findAllSubmatchIndex. simpl.
    rewrite Hd, findAllFrom_tok_word by done.
    rewrite findAllFrom_tok_end by done. rewrite findAllFrom_idle.
    replace (2 + length w')%nat with (S (length (d :: w'))) by (simpl; lia).
    change (d :: w' ++ rest) with ((d :: w') ++ rest).
    rewrite replLoop_token by apply findAllFrom_wf. reflexivity.
Qed.

Lemma replaceAll_char (repl : list gostr -> gostr) (c : ascii) (s : gostr) :
  isDollar c && startsWord s = false ->
  replaceAllStringSubMatchFunc (c :: s) repl = c :: replaceAllStringSubMatchFunc s repl.
Proof.
  intros T. unfold replaceAllStringSubMatchFunc, findAllSubmatchIndex. simpl.
  assert (findAllFrom s 1 (idleStep c 0) = findAllFrom s 1 SIdle) as E.
  { unfold idleStep. destruct (isDollar c) eqn:Hc; [|done].
    apply findAllFrom_dollar_nonword. simpl in T. done. }
  rewrite E, findAllFrom_idle, replLoop_cons by apply findAllFrom_wf. reflexivity.
Qed.

Lemma replaceAll_token (repl : list gostr -> gostr) (s : gostr) :
  startsWord s = true ->
  replaceAllStringSubMatchFunc ("$"%char :: s) repl
  = repl ["$"%char :: wordPrefix s; wordPrefix s] ++ replaceAllStringSubMatchFunc (afterWord s) repl.
Proof.
  intros Hw. pose proof (wordPrefix_afterWord s) as Hs.
  pose proof (wordPrefix_word s) as Hword. pose proof (afterWord_nonword s) as Hrest.
  destruct (wordPrefix s) as [|d w'] eqn:Wp.
  { destruct s as [|c0 s0]; [discriminate|]. simpl in Wp, Hw. rewrite Hw in Wp. discriminate. }
  inversion Hword as [|? ? Hd Hw']; subst.
  remember (afterWord s) as r eqn:Er. clear Er. rewrite Hs.
  unfold replaceAllStringSubMatchFunc, findAllSubmatchIndex. simpl.
  rewrite Hd, findAllFrom_tok_word by done.
  rewrite findAllFrom_tok_end by done. rewrite findAllFrom_idle.
  replace (2 + length w')%nat with (S (length (d :: w'))) by (simpl; lia).
  change (d :: w' ++ r) with ((d :: w') ++ r).
  rewrite replLoop_token by apply findAllFrom_wf. reflexivity.
Qed.

(** X2: replacing every match by the whole match ([groups[0]]) gives
    the input back, for every string. *)
Theorem replaceAll_whole_match_id (s : gostr) :
  replaceAllStringSubMatchFunc s (fun groups => nth 0 groups []) = s.
Proof.
  remember (length s) as n eqn:Hn. revert s Hn.
  induction n as [n IH] using lt_wf_ind. intros s Hn.
  destruct s as [|c s']; [reflexivity|].
  destruct (isDollar c && startsWord s') eqn:T.
  - apply andb_true_iff in T as [Hc Hw].
    unfold isDollar in Hc. apply bool_decide_eq_true in Hc. subst c.
    rewrite replaceAll_token by exact Hw. cbn [nth].
    pose proof (wordPrefix_afterWord s') as Hs.
    assert (Hlt : (length (afterWord s') < n)%nat).
    { assert (length s' = length (wordPrefix s') + length (afterWord s'))%nat as L
        by (rewrite <- length_app, <- Hs; reflexivity).
      subst n. simpl. lia. }
    rewrite (IH _ Hlt _ eq_refl). simpl. f_equal. symmetry. exact Hs.
  - rewrite replaceAll_char by exact T. f_equal. apply (IH (length s')); [subst n; simpl; lia|done].
Qed.

(** X3: [expandStr] copies a prefix without ['$'] verbatim. *)
Theorem expandStr_plain_prefix (Val : Type) fmtV asStringMap (p s : gostr) (args : list Val) :
  Forall (fun c => isDollar c = false) p ->
  expandStr Val fmtV asStringMap (p ++ s) args = p ++ expandStr Val fmtV asStringMap s args.
Proof.
  unfold expandStr. induction 1 as [|c p Hc _ IH]; [reflexivity|].
  simpl. rewrite replaceAll_char by (rewrite Hc; reflexivity). by rewrite IH.
Qed.

Example expandStr_ex1 :
  expandStr Z (fun z => fmtInt z) (fun _ => None) (lit "a/$0/$1/$x$") [7; 42]
  = lit "a/7/42/[no_key:$x]$".
Proof. reflexivity. Qed.

Example expandStr_ex2 :
  expandStr Z (fun z => fmtInt z) (fun _ => None) (lit "$2") [7]
  = lit "[bad_index:$2]".
Proof. reflexivity. Qed.

Lemma expandStr_matches_reference_witness :
  hasToken (lit "plain text") = false /\
  expandStr Z (fun z => fmtInt z) (fun _ => None) (lit "plain text") [1]
  = lit "plain text".
Proof.
  split; [reflexivity|].
  apply (proj2 (expandStr_matches_reference Z (fun z => fmtInt z) (fun _ => None)
                  (lit "plain text") [1])).
  reflexivity.
Defined.

Example do_redirect_detected :
  fst ((c ← New (GL := toyLib) TestingT;
        c ← Get (GL := toyLib) c (lit "/start") [];
        c ← ExpectRedirectTo c (lit "/redirected");
        Do (GL := toyLib) 20 c (redirectingServer (lit "/redirected"))) emptyWorld)
  = Normal (Some (mkResponse 200 (lit "done"))).
Proof. vm_compute. reflexivity. Qed.

Example do_redirect_unexpected :
  w_log (snd ((c ← New (GL := toyLib) FakeTester;
        c ← Get (GL := toyLib) c (lit "/start") [];
        Do (GL := toyLib) 20 c (redirectingServer (lit "/redirected"))) emptyWorld))
  = [mkReport (lit "expected to redirect path '%s', actual path '%s'")
       [AStr []; AStr (lit "/redirected")];
     mkReport (lit "Expected no error, got %v")
       [AErr (UrlError (lit "GET") (lit "/redirected")
          (Errorf (lit "expected to redirect path '%s', actual path '%s'")
             [AStr []; AStr (lit "/redirected")]))]].
Proof. vm_compute. reflexivity. Qed.

(** ** The monad: primitive steps *)

Section ClientProofs.
Context {GL : GoLib}.

Ltac wsimpl := cbn [fst snd w_clients w_bools w_next w_checkRedirect w_log setClient option_map
                    c_expectedStatus c_err c_body c_t c_method set_err mret M_ret].

Lemma bind_normal {A B} (m : M A) (k : A -> M B) (w w' : World) (a : A) :
  m w = (Normal a, w') -> (m ≫= k) w = k a w'.
Proof. intros E. unfold mbind, M_bind. by rewrite E. Qed.

Lemma load_spec (c : nat) (cl : Client) (w : World) :
  w_clients w !! c = Some cl -> load c w = (Normal cl, w).
Proof. intros E. unfold load. by rewrite E. Qed.

Lemma modifyClient_spec (c : nat) (f : Client -> Client) (cl : Client) (w : World) :
  w_clients w !! c = Some cl -> modifyClient c f w = (Normal tt, setClient w c (f cl)).
Proof. intros E. unfold modifyClient. by rewrite (bind_normal _ _ _ _ _ (load_spec _ _ _ E)). Qed.

Lemma setClient_lookup (w : World) (c : nat) (cl : Client) :
  w_clients (setClient w c cl) !! c = Some cl.
Proof. unfold setClient. simpl. by rewrite lookup_insert_eq. Qed.

Lemma failNow_spec (c : nat) (format : gostr) (args : list Arg) (cl : Client) (w : World) :
  w_clients w !! c = Some cl ->
  failNow c format args w =
  (afterFailNow (c_t cl) tt,
   mkWorld (<[c := set_err (Some (Errorf format args)) cl]> (w_clients w)) (w_bools w)
     (w_next w) (w_checkRedirect w) (w_log w ++ [mkReport format args])).
Proof.
  intros E. unfold failNow.
  rewrite (bind_normal _ _ _ _ _ (modifyClient_spec _ _ _ _ E)).
  rewrite (bind_normal _ _ _ _ _ (load_spec _ _ _ (setClient_lookup _ _ _))).
  unfold mbind, M_bind, errorf, failNowT, afterFailNow. simpl.
  by destruct (t_failNowHalts (c_t cl)).
Qed.

Ltac lookup_done := wsimpl; rewrite ?lookup_insert_eq; try reflexivity; eauto.
Ltac step_load := erewrite bind_normal by (apply load_spec; lookup_done).
Ltac step_modify := erewrite bind_normal by (apply modifyClient_spec; lookup_done).

Lemma bind_failNow {B} (c : nat) (format : gostr) (args : list Arg) (k : unit -> M B)
    (cl : Client) (w : World) :
  w_clients w !! c = Some cl ->
  (failNow c format args ≫= k) w =
  let w' := mkWorld (<[c := set_err (Some (Errorf format args)) cl]> (w_clients w)) (w_bools w)
              (w_next w) (w_checkRedirect w) (w_log w ++ [mkReport format args]) in
  if t_failNowHalts (c_t cl) then (Goexit, w') else k tt w'.
Proof.
  intros E. unfold mbind at 1, M_bind at 1. rewrite (failNow_spec _ _ _ _ _ E).
  unfold afterFailNow. by destruct (t_failNowHalts (c_t cl)).
Qed.

(** C6: [ExpectedStatusCode] with a code in 300..399 reports the misuse
    ('misuse of ExpectedStatusCode(%d), use ExpectRedirectTo instead') and
    leaves the stored expected status unchanged; any other code is stored
    as the expectation, with nothing reported. *)
Theorem ExpectedStatusCode_redirect_guard (c : nat) (status : Z) (cl : Client) (w : World) :
  w_clients w !! c = Some cl ->
  ((300 <= status < 400) ->
     fst (ExpectedStatusCode c status w) = afterFailNow (c_t cl) c /\
     w_log (snd (ExpectedStatusCode c status w))
       = w_log w ++ [mkReport (lit "misuse of ExpectedStatusCode(%d), use ExpectRedirectTo instead")
                       [AInt status]] /\
     option_map c_expectedStatus (w_clients (snd (ExpectedStatusCode c status w)) !! c)
       = Some (c_expectedStatus cl)) /\
  (~ (300 <= status < 400) ->
     fst (ExpectedStatusCode c status w) = Normal c /\
     w_log (snd (ExpectedStatusCode c status w)) = w_log w /\
     option_map c_expectedStatus (w_clients (snd (ExpectedStatusCode c status w)) !! c)
       = Some status).
Proof.
  intros E. unfold ExpectedStatusCode.
  destruct ((300 <=? status) && (status <? 400)) eqn:B;
    apply andb_true_iff in B || apply andb_false_iff in B.
  - destruct B as [B1 B2]. apply Z.leb_le in B1. apply Z.ltb_lt in B2.
    split; [|intros N; lia]. intros _.
    rewrite (bind_failNow _ _ _ _ _ _ E). unfold afterFailNow.
    destruct (t_failNowHalts (c_t cl)); wsimpl; rewrite ?lookup_insert_eq; repeat split.
  - split; [intros R; destruct B as [B|B]; [apply Z.leb_gt in B|apply Z.ltb_ge in B]; lia|].
    intros _. rewrite (bind_normal _ _ _ _ _ (modifyClient_spec _ _ _ _ E)).
    wsimpl. rewrite lookup_insert_eq. repeat split.
Qed.

(** C7: [BodyJSON] with a nil payload reports 'payload to send is nil'
    and records an error in the builder before any serialization (the
    body is left as it was); a later [BuildRequest] yields no request. *)
Theorem BodyJSON_nil_payload (c : nat) (cl : Client) (w : World) :
  w_clients w !! c = Some cl ->
  fst (BodyJSON c None w) = afterFailNow (c_t cl) c /\
  w_log (snd (BodyJSON c None w)) = w_log w ++ [mkReport (lit "payload to send is nil") []] /\
  (exists cl', w_clients (snd (BodyJSON c None w)) !! c = Some cl' /\
               c_err cl' <> None /\ c_body cl' = c_body cl) /\
  BuildRequest c (snd (BodyJSON c None w)) = (Normal None, snd (BodyJSON c None w)).
Proof.
  intros E. unfold BodyJSON. rewrite (bind_failNow _ _ _ _ _ _ E). unfold afterFailNow.
  destruct (t_failNowHalts (c_t cl)); wsimpl.
  - split; [done|]. split; [done|]. split.
    + eexists. rewrite lookup_insert_eq. done.
    + unfold BuildRequest, buildRequest.
      step_load. done.
  - step_modify. wsimpl.
    split; [done|]. split; [done|]. split.
    + eexists. rewrite lookup_insert_eq. done.
    + unfold BuildRequest, buildRequest.
      step_load. done.
Qed.

(** ** Builder operations keep a recorded error *)

Lemma preserves_bind {A B} (P : World -> Prop) (m : M A) (k : A -> M B) :
  preserves P m -> (forall a, preserves P (k a)) -> preserves P (m ≫= k).
Proof.
  intros Hm Hk w Hw. unfold mbind, M_bind. specialize (Hm w Hw).
  destruct (m w) as [[a| | |] w']; simpl in *; auto. apply Hk, Hm.
Qed.

Lemma preserves_ret {A} (P : World -> Prop) (a : A) : preserves P (mret a).
Proof. by intros w Hw. Qed.
Lemma preserves_goexit {A} (P : World -> Prop) : preserves P (@goexit A).
Proof. by intros w Hw. Qed.
Lemma preserves_panic {A} (P : World -> Prop) msg : preserves P (@panic A msg).
Proof. by intros w Hw. Qed.
Lemma preserves_noFuel {A} (P : World -> Prop) : preserves P (@noFuel A).
Proof. by intros w Hw. Qed.
Lemma preserves_index {A} (P : World -> Prop) (l : list A) i : preserves P (index l i).
Proof. unfold index. destruct (l !! i); by intros w Hw. Qed.

Lemma errSet_load (c c' : nat) : preserves (errSet c) (load c').
Proof. intros w Hw. unfold load. by destruct (w_clients w !! c'). Qed.

Lemma errSet_errorf (c : nat) format args : preserves (errSet c) (errorf format args).
Proof. intros w Hw. exact Hw. Qed.

Lemma errSet_failNowT (c : nat) t : preserves (errSet c) (failNowT t).
Proof. unfold failNowT. destruct (t_failNowHalts t); by intros w Hw. Qed.

Lemma errSet_modify (c c' : nat) (f : Client -> Client) :
  (forall cl, c_err cl <> None -> c_err (f cl) <> None) ->
  preserves (errSet c) (modifyClient c' f).
Proof.
  intros Hf w [cl [Hc He]]. unfold modifyClient, mbind, M_bind, load, store.
  destruct (w_clients w !! c') as [cl'|] eqn:E; cbn [fst snd]; [|by exists cl].
  unfold errSet, setClient; cbn [w_clients].
  destruct (decide (c = c')) as [->|Hne].
  - exists (f cl'). rewrite lookup_insert_eq. split; [done|]. apply Hf. congruence.
  - exists cl. rewrite lookup_insert_ne by congruence. done.
Qed.

Lemma errSet_failNow (c c' : nat) format args : preserves (errSet c) (failNow c' format args).
Proof.
  unfold failNow. apply preserves_bind; [apply errSet_modify; by intros|intros _].
  apply preserves_bind; [apply errSet_load|intros cl].
  apply preserves_bind; [apply errSet_errorf|intros _]. apply errSet_failNowT.
Qed.

Lemma errSet_hasError (c c' : nat) e : preserves (errSet c) (hasError c' e).
Proof.
  unfold hasError. destruct e; [|apply preserves_ret].
  apply preserves_bind; [apply errSet_modify; by intros|intros _].
  apply preserves_bind; [apply errSet_failNow|intros _]. apply preserves_ret.
Qed.

Create HintDb errset.
#[local] Hint Resolve preserves_ret preserves_goexit preserves_panic preserves_noFuel
  preserves_index errSet_load errSet_errorf errSet_failNowT errSet_failNow
  errSet_hasError : errset.
#[local] Hint Extern 1 (preserves _ (modifyClient _ _)) =>
  apply errSet_modify; intros ? ?; cbn [c_err set_err set_method set_url set_header set_body
    set_form set_context set_expectedStatus set_expectRedirectPath]; congruence : errset.

Ltac pres :=
  repeat match goal with
  | |- preserves _ (mbind _ _) => apply preserves_bind; [|intros ?]
  | |- preserves _ (if ?b then _ else _) => destruct b
  | |- preserves _ (match ?x with _ => _ end) => destruct x
  end; eauto with errset.

Lemma errSet_headerAddAll (c c' : nat) name vs : preserves (errSet c) (headerAddAll c' name vs).
Proof. induction vs as [|v vs IH]; simpl; pres. Qed.

Lemma errSet_formAddLoop (c c' : nat) args fuel :
  forall i, preserves (errSet c) (formAddLoop fuel c' args i).
Proof. induction fuel as [|fuel IH]; intros i; simpl; pres. Qed.

Lemma errSet_Method (c c' : nat) m : preserves (errSet c) (Method c' m).
Proof. unfold Method. pres. Qed.
Lemma errSet_URL (c c' : nat) url args : preserves (errSet c) (URL c' url args).
Proof. unfold URL. pres. Qed.

#[local] Hint Resolve errSet_headerAddAll errSet_formAddLoop errSet_Method errSet_URL : errset.

Lemma errSet_runOp (c c' : nat) (op : BuilderOp) : preserves (errSet c) (runOp c' op).
Proof.
  destruct op; simpl;
    unfold Context, ExpectedStatusCode, ExpectRedirectTo, Method, URL, Post, Put, Patch, Get,
      Delete, Header, FormData, ClearHeaders, BodyJSON, BodyString, BodyBytes; pres.
Qed.

Lemma errSet_runOps (c : nat) (ops : list BuilderOp) :
  forall c', preserves (errSet c) (runOps c' ops).
Proof.
  induction ops as [|op ops IH]; intros c'; simpl.
  - apply preserves_ret.
  - apply preserves_bind; [apply errSet_runOp|intros c'']. apply IH.
Qed.

Lemma buildRequest_err (c : nat) (base : gostr) (w : World) :
  errSet c w -> buildRequest c base w = (Normal None, w).
Proof.
  intros [cl [Hc He]]. unfold buildRequest. step_load.
  destruct (c_err cl); [reflexivity|congruence].
Qed.

(** C2 (amended). Once builder [c] has a recorded error, any chain of
    builder operations leaves an error recorded on [c] (possibly a
    different error value; other fields may still change), and afterwards
    [buildRequest] with any base URL and [Do] against any server return
    [nil] and leave the world untouched. *)
Theorem err_sticky_amended (c : nat) (w : World) (ops : list BuilderOp) :
  errSet c w ->
  errSet c (snd (runOps c ops w)) /\
  (forall base, buildRequest c base (snd (runOps c ops w)) = (Normal None, snd (runOps c ops w))) /\
  (forall fuel server, Do fuel c server (snd (runOps c ops w)) = (Normal None, snd (runOps c ops w))).
Proof.
  intros Hw. pose proof (errSet_runOps c ops c w Hw) as H'.
  split; [exact H'|split].
  - intros base. by apply buildRequest_err.
  - intros fuel server. unfold Do. by rewrite (bind_normal _ _ _ _ _ (buildRequest_err _ _ _ H')).
Qed.

(** ** FormData with an odd number of arguments *)

Lemma bind_panic {A B} (m : M A) (k : A -> M B) (w w' : World) msg :
  m w = (Panic msg, w') -> (m ≫= k) w = (Panic msg, w').
Proof. intros E. unfold mbind, M_bind. by rewrite E. Qed.

Lemma index_some {A} (l : list A) (i : nat) (x : A) (w : World) :
  l !! i = Some x -> index l i w = (Normal x, w).
Proof. intros E. unfold index. by rewrite E. Qed.

Lemma index_none {A} (l : list A) (i : nat) (w : World) :
  l !! i = None -> index l i w = (Panic (lit "runtime error: index out of range"), w).
Proof. intros E. unfold index. by rewrite E. Qed.

(** From index [i] with [2 n + 1] arguments left, the loop reads
    [args[len(args)]] and panics; nothing is reported on the way. *)
Lemma formAddLoop_odd (c : nat) (args : list gostr) (n : nat) :
  forall fuel i w, (n < fuel)%nat -> length args = (i + 2 * n + 1)%nat ->
  is_Some (w_clients w !! c) ->
  exists w', formAddLoop fuel c args i w = (Panic (lit "runtime error: index out of range"), w') /\
             w_log w' = w_log w.
Proof.
  induction n as [|n IH]; intros fuel i w Hf Hl [cl Hc];
    (destruct fuel as [|fuel]; [lia|]); cbn [formAddLoop];
    (assert (Hlt : (i <? length args)%nat = true) by (apply Nat.ltb_lt; lia)); rewrite Hlt;
    destruct (lookup_lt_is_Some_2 args i) as [k Hk]; try lia;
    rewrite (bind_normal _ _ _ _ _ (index_some _ _ _ w Hk)).
  - exists w. split; [|reflexivity]. apply bind_panic, index_none, lookup_ge_None_2. lia.
  - destruct (lookup_lt_is_Some_2 args (S i)) as [v Hv]; [lia|].
    rewrite (bind_normal _ _ _ _ _ (index_some _ _ _ w Hv)).
    erewrite bind_normal by (apply modifyClient_spec; exact Hc).
    destruct (IH fuel (S (S i)) (setClient w c (set_form (Some (valuesAdd (default ∅ (c_form cl)) k v)) cl)))
      as [w' [E Hlog]]; [lia|lia|eexists; apply setClient_lookup|].
    exists w'. split; [exact E|]. rewrite Hlog. reflexivity.
Qed.

(** C8: with a tester whose [FailNow] returns (such as [self.FakeTester]),
    [FormData] with an odd number of arguments reports the missing pair and
    then panics reading [args[len(args)]]. *)
Theorem FormData_odd_panics (c : nat) (cl : Client) (w : World) (args : list gostr) :
  w_clients w !! c = Some cl -> t_failNowHalts (c_t cl) = false -> Nat.odd (length args) = true ->
  fst (FormData c args w) = Panic (lit "runtime error: index out of range") /\
  w_log (snd (FormData c args w)) =
    w_log w ++ [mkReport (lit "Incorrect number of parameters %d items, missed pair")
                  [AInt (Z.of_nat (length args))]].
Proof.
  intros Hc Ht Hodd. unfold FormData. rewrite Hodd.
  rewrite (bind_failNow _ _ _ _ _ _ Hc). cbv zeta. rewrite Ht.
  apply Nat.odd_spec in Hodd as [m Hm].
  step_load. cbn [c_form set_err].
  destruct (c_form cl) as [f|].
  - erewrite bind_normal by reflexivity.
    match goal with
    | |- context [(formAddLoop ?fu ?cc ?a ?i ≫= ?k) ?W] =>
        destruct (formAddLoop_odd cc a m fu i W) as [w' [E Hlog]];
        [lia|lia|eexists; lookup_done|rewrite (bind_panic _ _ _ _ _ E)]
    end.
    split; [reflexivity|]. cbn [snd]. rewrite Hlog. reflexivity.
  - step_modify.
    match goal with
    | |- context [(formAddLoop ?fu ?cc ?a ?i ≫= ?k) ?W] =>
        destruct (formAddLoop_odd cc a m fu i W) as [w' [E Hlog]];
        [lia|lia|eexists; lookup_done|rewrite (bind_panic _ _ _ _ _ E)]
    end.
    split; [reflexivity|]. cbn [snd]. rewrite Hlog. reflexivity.
Qed.

(** ** Do, the transport and the redirect check *)

Lemma bind_after {A B} (m : M A) (k : A -> M B) (t : Tester) (a : A) (w w' : World) :
  m w = (afterFailNow t a, w') ->
  (m ≫= k) w = if t_failNowHalts t then (Goexit, w') else k a w'.
Proof.
  intros E. unfold mbind, M_bind. rewrite E. unfold afterFailNow.
  by destruct (t_failNowHalts t).
Qed.

Lemma Do_install (fuel c : nat) (srv : Server) (w w1 : World) (req : Request) :
  buildRequest c (srv_URL srv) w = (Normal (Some req), w1) ->
  Do fuel c srv w = (r ← follow fuel srv req []; doAfter c (w_next w1) r) (installed c w1).
Proof.
  intros HB. unfold Do. rewrite (bind_normal _ _ _ _ _ HB). cbv beta iota.
  erewrite bind_normal by reflexivity. erewrite bind_normal by reflexivity.
  unfold installed. cbn [w_checkRedirect].
  destruct (w_checkRedirect w1) as [p|]; erewrite bind_normal by reflexivity; reflexivity.
Qed.

Lemma follow_final (fuel : nat) (srv : Server) (req : Request) (via : list Request)
    (w : World) (s : Z) (loc : option gostr) (body : gostr) :
  srv_handler srv req = RStatus s loc body -> loc = None \/ isRedirectStatus s = false ->
  follow (S fuel) srv req via w = (Normal (Ok (mkResponse s body)), w).
Proof.
  intros Hh Hl. cbn [follow]. rewrite Hh.
  destruct Hl as [->|Hr]; [reflexivity|]. destruct loc; [|reflexivity]. by rewrite Hr.
Qed.

Lemma redirectRequest_path (req : Request) (st : Z) (loc : gostr) :
  rq_path (redirectRequest req st loc) = loc.
Proof. unfold redirectRequest. by destruct ((st =? 307) || (st =? 308)). Qed.

Lemma checkRedirect_match (c b : nat) (cl : Client) (next : Request) (via : list Request)
    (w : World) :
  w_checkRedirect w = Some (DoCheck c b) -> w_clients w !! c = Some cl ->
  rq_path next = c_expectRedirectPath cl ->
  checkRedirect next via w =
  (Normal None, mkWorld (w_clients w) (<[b := true]> (w_bools w)) (w_next w)
                  (w_checkRedirect w) (w_log w)).
Proof.
  intros Hp Hc Hm. unfold checkRedirect. erewrite bind_normal by reflexivity.
  cbv beta. rewrite Hp. cbv iota. step_load.
  rewrite bool_decide_true by exact Hm. cbn [negb].
  erewrite bind_normal by reflexivity. cbv beta. unfold mret, M_ret. by rewrite Hp.
Qed.

Lemma checkRedirect_mismatch (c b : nat) (cl : Client) (next : Request) (via : list Request)
    (w : World) :
  w_checkRedirect w = Some (DoCheck c b) -> w_clients w !! c = Some cl ->
  rq_path next <> c_expectRedirectPath cl ->
  let err := Errorf (lit "expected to redirect path '%s', actual path '%s'")
               [AStr (c_expectRedirectPath cl); AStr (rq_path next)] in
  checkRedirect next via w =
  (afterFailNow (c_t cl) (Some err),
   mkWorld (<[c := set_err (Some err) cl]> (w_clients w)) (w_bools w) (w_next w)
     (w_checkRedirect w)
     (w_log w ++ [mkReport (lit "expected to redirect path '%s', actual path '%s'")
                    [AStr (c_expectRedirectPath cl); AStr (rq_path next)]])).
Proof.
  intros Hp Hc Hm err. unfold checkRedirect. erewrite bind_normal by reflexivity.
  cbv beta. rewrite Hp. cbv iota. step_load.
  rewrite bool_decide_false by exact Hm. cbn [negb].
  rewrite (bind_failNow _ _ _ _ _ _ Hc). cbv zeta. unfold afterFailNow.
  destruct (t_failNowHalts (c_t cl)); [by rewrite Hp|].
  step_load. by rewrite Hp.
Qed.

Lemma bind_inv {A B} (m : M A) (k : A -> M B) (w w'' : World) (b : B) :
  (m ≫= k) w = (Normal b, w'') -> exists a w', m w = (Normal a, w') /\ k a w' = (Normal b, w'').
Proof.
  unfold mbind, M_bind. destruct (m w) as [o w']. destruct o; intros E; try discriminate. eauto.
Qed.

(** A [CheckRedirect] that lets the hop go changes no builder and
    reports nothing. *)
Lemma checkRedirect_none_frame (next : Request) (via : list Request) (W0 W : World) :
  checkRedirect next via W0 = (Normal None, W) ->
  w_clients W = w_clients W0 /\ w_log W = w_log W0.
Proof.
  unfold checkRedirect. intros E.
  destruct (bind_inv _ _ _ _ _ E) as (pol & W1 & E1 & E2).
  unfold getCheckRedirect in E1. injection E1 as <- <-.
  destruct (w_checkRedirect W0) as [[c' b|f]|].
  - destruct (bind_inv _ _ _ _ _ E2) as (cl & W2 & E3 & E4).
    unfold load in E3. destruct (w_clients W0 !! c'); inversion E3; subst.
    destruct (negb _).
    + destruct (bind_inv _ _ _ _ _ E4) as (u & W3 & E5 & E6). cbv beta in E6.
      destruct (bind_inv _ _ _ _ _ E6) as (cl2 & W4 & E7 & E8).
      cbv [mret M_ret] in E8. inversion E8.
    + destruct (bind_inv _ _ _ _ _ E4) as (u & W3 & E5 & E6).
      unfold writeBool in E5. inversion E5; subst.
      cbv [mret M_ret] in E6. inversion E6; subst. cbn. auto.
  - cbv [mret M_ret] in E2. inversion E2; subst. auto.
  - cbv [mret M_ret] in E2. inversion E2; subst. auto.
Qed.

(** A transport that ends in a response, after any number of hops, has
    changed no builder and reported nothing. *)
Lemma follow_ok_frame (fuel : nat) (srv : Server) :
  forall req via W0 W r, follow fuel srv req via W0 = (Normal (Ok r), W) ->
  w_clients W = w_clients W0 /\ w_log W = w_log W0.
Proof.
  induction fuel as [|fuel IH]; intros req via W0 W r E; cbn [follow] in E;
    [cbv [noFuel] in E; discriminate|].
  destruct (srv_handler srv req) as [st [loc|] body|e].
  - destruct (isRedirectStatus st); cbv zeta in E.
    + destruct (bind_inv _ _ _ _ _ E) as (oe & W1 & E1 & E2). destruct oe as [err|].
      * cbv [mret M_ret] in E2. inversion E2.
      * destruct (checkRedirect_none_frame _ _ _ _ E1) as [H1 H2].
        destruct (IH _ _ _ _ _ E2) as [H3 H4]. split; congruence.
    + cbv [mret M_ret] in E. inversion E; subst. auto.
  - cbv [mret M_ret] in E. inversion E; subst. auto.
  - cbv [mret M_ret] in E. inversion E.
Qed.

(** C1: for every dispatch whose request builds and whose transport
    ([client.Do], after any redirects it followed) ends in a response,
    with the redirect expectation met (none set, or [Do]'s
    [wasRedirected] flag set by a matching hop): with no expected status
    a status below 400 is success and one of 400 or more is reported as
    'expected success, got %d'; with a positive expected status only that
    status is success, any other is reported as 'expected %d, got %d'. A
    reported failure makes [Do] return [nil] (when the tester's [FailNow]
    returns at all). *)
Theorem Do_status_validation (fuel c : nat) (srv : Server) (w w1 W : World) (req : Request)
    (cl : Client) (resp : Response) :
  buildRequest c (srv_URL srv) w = (Normal (Some req), w1) ->
  w_clients w1 !! c = Some cl ->
  follow fuel srv req [] (installed c w1) = (Normal (Ok resp), W) ->
  c_expectRedirectPath cl = [] \/ w_bools W !! w_next w1 = Some true ->
  (c_expectedStatus cl = 0 -> resp_status resp < 400 ->
     fst (Do fuel c srv w) = Normal (Some resp) /\
     w_log (snd (Do fuel c srv w)) = w_log w1 ++ selfTestReports (c_t cl)) /\
  (c_expectedStatus cl = 0 -> 400 <= resp_status resp ->
     fst (Do fuel c srv w) = afterFailNow (c_t cl) None /\
     w_log (snd (Do fuel c srv w)) =
       w_log w1 ++ [mkReport (lit "expected success, got %d") [AInt (resp_status resp)]]) /\
  (0 < c_expectedStatus cl -> c_expectedStatus cl = resp_status resp ->
     fst (Do fuel c srv w) = Normal (Some resp) /\
     w_log (snd (Do fuel c srv w)) = w_log w1 ++ selfTestReports (c_t cl)) /\
  (0 < c_expectedStatus cl -> c_expectedStatus cl <> resp_status resp ->
     fst (Do fuel c srv w) = afterFailNow (c_t cl) None /\
     w_log (snd (Do fuel c srv w)) =
       w_log w1 ++ [mkReport (lit "expected %d, got %d")
                      [AInt (c_expectedStatus cl); AInt (resp_status resp)]]).
Proof.
  intros HB Hc HF Hr.
  rewrite (Do_install _ _ _ _ _ _ HB).
  rewrite (bind_normal _ _ _ _ _ HF).
  destruct (follow_ok_frame _ _ _ _ _ _ _ HF) as [Hcl Hlg].
  assert (Hc' : w_clients W !! c = Some cl) by (rewrite Hcl; exact Hc).
  assert (Hlg' : w_log W = w_log w1) by exact Hlg.
  unfold doAfter. erewrite bind_normal by reflexivity. cbv beta iota.
  rewrite (bind_normal _ _ _ _ _ (load_spec _ _ _ Hc')).
  erewrite bind_normal by reflexivity. cbv beta.
  assert (Hno : negb (bool_decide (c_expectRedirectPath cl = []))
                && negb (default false (w_bools W !! w_next w1)) = false).
  { destruct Hr as [He|Hb].
    - rewrite He, bool_decide_true by reflexivity. reflexivity.
    - rewrite Hb. apply andb_false_r. }
  rewrite Hno. rewrite <- Hlg'.
  set (s := resp_status resp).
  assert (Hsucc : forall W, w_clients W !! c = Some cl ->
    fst (((if t_isFakeTester (c_t cl) then failNow c (lit "ASSERTION NOT MET") [] else mret tt);;
          mret (Some resp)) W) = Normal (Some resp) /\
    w_log (snd (((if t_isFakeTester (c_t cl) then failNow c (lit "ASSERTION NOT MET") [] else mret tt);;
          mret (Some resp)) W)) = w_log W ++ selfTestReports (c_t cl)).
  { intros W' HW. unfold selfTestReports. destruct (c_t cl) eqn:Et; cbn [t_isFakeTester].
    - erewrite bind_normal by reflexivity. by rewrite app_nil_r.
    - rewrite (bind_failNow _ _ _ _ _ _ HW). rewrite Et. done.
    - erewrite bind_normal by reflexivity. by rewrite app_nil_r. }
  assert (Hfail : forall W fmt args, w_clients W !! c = Some cl ->
    fst ((failNow c fmt args;; mret (@None Response)) W) = afterFailNow (c_t cl) None /\
    w_log (snd ((failNow c fmt args;; mret (@None Response)) W)) = w_log W ++ [mkReport fmt args]).
  { intros W' fmt args HW. rewrite (bind_failNow _ _ _ _ _ _ HW). cbv zeta. unfold afterFailNow.
    by destruct (t_failNowHalts (c_t cl)). }
  split; [|split; [|split]]; intros H1 H2.
  - rewrite H1. cbn [Z.eqb]. rewrite (proj2 (Z.leb_gt 400 s) H2). apply (Hsucc _ Hc').
  - rewrite H1. cbn [Z.eqb]. rewrite (proj2 (Z.leb_le 400 s) H2). apply (Hfail _ _ _ Hc').
  - rewrite H2, Z.eqb_refl. cbn [negb]. rewrite andb_false_r.
    replace (s =? 0) with false by (symmetry; apply Z.eqb_neq; lia). apply (Hsucc _ Hc').
  - replace (c_expectedStatus cl =? 0) with false by (symmetry; apply Z.eqb_neq; lia).
    rewrite (proj2 (Z.ltb_lt 0 _) H1), (proj2 (Z.eqb_neq _ _) H2). apply (Hfail _ _ _ Hc').
Qed.

Lemma follow_hop_match (fuel c b : nat) (cl : Client) (srv : Server) (req : Request)
    (via : list Request) (w : World) (st : Z) (loc body : gostr) :
  w_checkRedirect w = Some (DoCheck c b) -> w_clients w !! c = Some cl ->
  srv_handler srv req = RStatus st (Some loc) body -> isRedirectStatus st = true ->
  loc = c_expectRedirectPath cl ->
  follow (S fuel) srv req via w =
  follow fuel srv (redirectRequest req st loc) (via ++ [req])
    (mkWorld (w_clients w) (<[b := true]> (w_bools w)) (w_next w) (w_checkRedirect w) (w_log w)).
Proof.
  intros Hp Hc Hh Hr Hm. cbn [follow]. rewrite Hh, Hr. cbv zeta iota.
  rewrite (bind_normal _ _ _ _ _
    (checkRedirect_match c b cl _ _ w Hp Hc (eq_trans (redirectRequest_path _ _ _) Hm))).
  reflexivity.
Qed.

Lemma follow_hop_mismatch (fuel c b : nat) (cl : Client) (srv : Server) (req : Request)
    (via : list Request) (w : World) (st : Z) (loc body : gostr) :
  w_checkRedirect w = Some (DoCheck c b) -> w_clients w !! c = Some cl ->
  srv_handler srv req = RStatus st (Some loc) body -> isRedirectStatus st = true ->
  loc <> c_expectRedirectPath cl ->
  let err := Errorf (lit "expected to redirect path '%s', actual path '%s'")
               [AStr (c_expectRedirectPath cl); AStr loc] in
  follow (S fuel) srv req via w =
  (afterFailNow (c_t cl) (Err (UrlError (rq_method (default req (head (via ++ [req])))) loc err)),
   mkWorld (<[c := set_err (Some err) cl]> (w_clients w)) (w_bools w) (w_next w)
     (w_checkRedirect w)
     (w_log w ++ [mkReport (lit "expected to redirect path '%s', actual path '%s'")
                    [AStr (c_expectRedirectPath cl); AStr loc]])).
Proof.
  intros Hp Hc Hh Hr Hm err. cbn [follow]. rewrite Hh, Hr. cbv zeta iota.
  pose proof (checkRedirect_mismatch c b cl (redirectRequest req st loc) (via ++ [req]) w Hp Hc)
    as E. rewrite redirectRequest_path in E. specialize (E Hm).
  rewrite (bind_after _ _ _ _ _ _ E). unfold afterFailNow.
  by destruct (t_failNowHalts (c_t cl)).
Qed.

Lemma hasError_some (c : nat) (cl : Client) (e : GoError) (w : World) :
  w_clients w !! c = Some cl ->
  hasError c (Some e) w =
  (afterFailNow (c_t cl) true,
   mkWorld (<[c := set_err (Some (Errorf (lit "Expected no error, got %v") [AErr e]))
                     (set_err (Some e) cl)]> (<[c := set_err (Some e) cl]> (w_clients w)))
     (w_bools w) (w_next w) (w_checkRedirect w)
     (w_log w ++ [mkReport (lit "Expected no error, got %v") [AErr e]])).
Proof.
  intros Hc. unfold hasError. rewrite (bind_normal _ _ _ _ _ (modifyClient_spec _ _ _ _ Hc)).
  rewrite (bind_failNow _ _ _ _ _ _ (setClient_lookup _ _ _)). cbv zeta. unfold afterFailNow.
  cbn [c_t set_err]. by destruct (t_failNowHalts (c_t cl)).
Qed.

Lemma installed_lookup (c : nat) (w : World) : w_clients (installed c w) = w_clients w.
Proof. reflexivity. Qed.

Lemma installed_policy (c : nat) (w : World) :
  w_checkRedirect w = None -> w_checkRedirect (installed c w) = Some (DoCheck c (w_next w)).
Proof. intros H. unfold installed. cbn [w_checkRedirect]. by rewrite H. Qed.

(** A dispatch that [Do] aborts with [err]: what [Do] makes of it. *)
Lemma doAfter_err (c b : nat) (cl : Client) (e : GoError) (w : World) :
  w_clients w !! c = Some cl ->
  fst (doAfter c b (Err e) w) = afterFailNow (c_t cl) None /\
  w_log (snd (doAfter c b (Err e) w)) =
    w_log w ++ [mkReport (lit "Expected no error, got %v") [AErr e]].
Proof.
  intros Hc. unfold doAfter. cbn [errOf].
  rewrite (bind_after _ _ _ _ _ _ (hasError_some _ _ _ _ Hc)). unfold afterFailNow.
  by destruct (t_failNowHalts (c_t cl)).
Qed.

(** C5: when no redirect is expected and the server's client had no
    [CheckRedirect], a first reply that redirects to a non-empty path is
    refused: the check reports 'expected to redirect path '%s', actual
    path '%s'' with the empty expectation, and [Do] returns [nil] (after
    reporting the transport error too, when the tester's [FailNow]
    returns). No redirect is ever followed. *)
Theorem Do_no_expectation_refuses_redirect (fuel c : nat) (srv : Server) (w w1 : World)
    (req : Request) (cl : Client) (st : Z) (loc body : gostr) :
  buildRequest c (srv_URL srv) w = (Normal (Some req), w1) ->
  w_checkRedirect w1 = None ->
  w_clients w1 !! c = Some cl ->
  c_expectRedirectPath cl = [] ->
  srv_handler srv req = RStatus st (Some loc) body -> isRedirectStatus st = true ->
  loc <> [] ->
  fst (Do (S fuel) c srv w) = afterFailNow (c_t cl) None /\
  w_log (snd (Do (S fuel) c srv w)) =
    w_log w1 ++ mkReport (lit "expected to redirect path '%s', actual path '%s'") [AStr []; AStr loc] ::
      thenIfReturns (c_t cl)
        [mkReport (lit "Expected no error, got %v")
           [AErr (UrlError (rq_method req) loc
                    (Errorf (lit "expected to redirect path '%s', actual path '%s'")
                       [AStr []; AStr loc]))]].
Proof.
  intros HB Hp Hc He Hh Hr Hl.
  rewrite (Do_install _ _ _ _ _ _ HB).
  assert (Hm : loc <> c_expectRedirectPath cl) by (by rewrite He).
  rewrite (bind_after _ _ _ _ _ _
    (follow_hop_mismatch fuel c (w_next w1) cl srv req [] (installed c w1) st loc body
       (installed_policy c w1 Hp) Hc Hh Hr Hm)).
  unfold thenIfReturns, afterFailNow. rewrite He. cbn [head default app].
  destruct (t_failNowHalts (c_t cl)) eqn:Ht.
  - split; [reflexivity|]. reflexivity.
  - match goal with
    | |- context [doAfter ?cc ?bb (Err ?e) ?W] =>
        destruct (doAfter_err cc bb _ e W (lookup_insert_eq _ _ _)) as [E1 E2]
    end.
    unfold afterFailNow in E1. cbn [c_t set_err] in E1. rewrite Ht in E1.
    split; [exact E1|]. rewrite E2. cbn [w_log]. by rewrite <- app_assoc.
Qed.

(** Under its own closure, the flag [b] of the running dispatch only goes
    from [false] to [true], and the loop over a server that always
    redirects to the expected path never ends. *)
Lemma follow_loop (c b : nat) (cl : Client) (target : gostr) :
  c_expectRedirectPath cl = target ->
  forall fuel req via w,
  w_checkRedirect w = Some (DoCheck c b) -> w_clients w !! c = Some cl ->
  exists w', follow fuel (loopServer target) req via w = (NoFuel, w') /\ w_log w' = w_log w.
Proof.
  intros He fuel. induction fuel as [|fuel IH]; intros req via w Hp Hc.
  - by exists w.
  - rewrite (follow_hop_match fuel c b cl (loopServer target) req via w 303 target [] Hp Hc
               eq_refl eq_refl (eq_sym He)).
    destruct (IH (redirectRequest req 303 target) (via ++ [req])
                (mkWorld (w_clients w) (<[b := true]> (w_bools w)) (w_next w)
                   (w_checkRedirect w) (w_log w))) as [w' [E Hl]]; [exact Hp|exact Hc|].
    exists w'. split; [exact E|exact Hl].
Qed.

Lemma bind_noFuel {A B} (m : M A) (k : A -> M B) (w w' : World) :
  m w = (NoFuel, w') -> (m ≫= k) w = (NoFuel, w').
Proof. intros E. unfold mbind, M_bind. by rewrite E. Qed.


(** ** Builder operations, extra properties *)

Lemma setClient_id (w : World) (c : nat) (cl : Client) :
  w_clients w !! c = Some cl -> setClient w c cl = w.
Proof. intros E. destruct w. unfold setClient. cbn in *. f_equal. by apply insert_id. Qed.

Lemma setClient_setClient (w : World) (c : nat) (a b : Client) :
  setClient (setClient w c a) c b = setClient w c b.
Proof. unfold setClient. cbn. by rewrite insert_insert_eq. Qed.

Lemma headerAddAll_spec (c : nat) (name : gostr) (vs : list gostr) :
  forall (cl : Client) (l : list gostr) (w : World),
  w_clients w !! c = Some cl -> c_header cl !! canonicalMIMEHeaderKey name = Some l ->
  headerAddAll c name vs w
  = (Normal tt, setClient w c (set_header (<[canonicalMIMEHeaderKey name := l ++ vs]> (c_header cl)) cl)).
Proof.
  induction vs as [|v vs IH]; intros cl l w Hc Hl; cbn [headerAddAll].
  - rewrite app_nil_r, insert_id by exact Hl.
    replace (set_header (c_header cl) cl) with cl by (by destruct cl).
    by rewrite setClient_id.
  - rewrite (bind_normal _ _ _ _ _ (modifyClient_spec _ _ _ _ Hc)).
    erewrite (IH _ (l ++ [v])); [| apply setClient_lookup |].
    + rewrite setClient_setClient. unfold hadd. cbn [c_header set_header]. rewrite Hl.
      cbn [default]. rewrite insert_insert_eq. unfold id. rewrite <- app_assoc. reflexivity.
    + unfold hadd. cbn [c_header set_header]. rewrite Hl. apply lookup_insert_eq.
Qed.

(** X4: [Header(name, value, more...)] makes [value, more...] the values
    of the canonical [name], replacing earlier ones, and changes nothing
    else: no other header, no other field, no report. *)
Theorem Header_sets_then_adds (c : nat) (cl : Client) (w : World) (name value : gostr)
    (more : list gostr) :
  w_clients w !! c = Some cl ->
  Header c name value more w
  = (Normal c, setClient w c
       (set_header (<[canonicalMIMEHeaderKey name := value :: more]> (c_header cl)) cl)).
Proof.
  intros Hc. unfold Header.
  rewrite (bind_normal _ _ _ _ _ (modifyClient_spec _ _ _ _ Hc)).
  erewrite bind_normal; [|apply (headerAddAll_spec c name more (set_header (hset (c_header cl) name value) cl) [value]);
                          [apply setClient_lookup | unfold hset; apply lookup_insert_eq]].
  rewrite setClient_setClient. unfold hset. cbn [c_header set_header].
  rewrite insert_insert_eq. reflexivity.
Qed.

Lemma formAddLoop_even (c : nat) (args : list gostr) (n : nat) :
  forall fuel i (cl : Client) (f : Values) (w : World),
  (n < fuel)%nat -> length args = (i + 2 * n)%nat ->
  w_clients w !! c = Some cl -> c_form cl = Some f ->
  formAddLoop fuel c args i w
  = (Normal tt, setClient w c (set_form (Some (addPairs f (drop i args))) cl)).
Proof.
  induction n as [|n IH]; intros fuel i cl f w Hf Hl Hc Hform;
    (destruct fuel as [|fuel]; [lia|]); cbn [formAddLoop].
  - rewrite (proj2 (Nat.ltb_ge i (length args))) by lia.
    rewrite drop_ge by lia. cbn [addPairs].
    replace (set_form (Some f) cl) with cl by (destruct cl; cbn in *; by subst).
    by rewrite setClient_id.
  - assert (Hlt : (i <? length args)%nat = true) by (apply Nat.ltb_lt; lia). rewrite Hlt.
    destruct (lookup_lt_is_Some_2 args i) as [k Hk]; [lia|].
    destruct (lookup_lt_is_Some_2 args (S i)) as [v Hv]; [lia|].
    rewrite (bind_normal _ _ _ _ _ (index_some _ _ _ w Hk)).
    rewrite (bind_normal _ _ _ _ _ (index_some _ _ _ w Hv)).
    rewrite (bind_normal _ _ _ _ _ (modifyClient_spec _ _ _ _ Hc)).
    erewrite (IH fuel (S (S i)) _ (valuesAdd f k v)); [| lia | lia | apply setClient_lookup |].
    + rewrite setClient_setClient. rewrite (drop_S args k i Hk), (drop_S args v (S i) Hv).
      reflexivity.
    + cbn [c_form set_form]. by rewrite Hform.
Qed.

Lemma FormData_even_spec (c : nat) (cl : Client) (w : World) (args : list gostr) :
  w_clients w !! c = Some cl -> Nat.even (length args) = true ->
  FormData c args w =
  (Normal c, setClient w c
     (set_body (Some (encodeValues (addPairs (default ∅ (c_form cl)) args)))
        (set_form (Some (addPairs (default ∅ (c_form cl)) args)) cl))).
Proof.
  intros Hc Hev. unfold FormData.
  rewrite <- Nat.negb_even, Hev. cbn [negb].
  erewrite bind_normal by reflexivity. step_load.
  apply Nat.even_spec in Hev as [m Hm].
  destruct (c_form cl) as [f|] eqn:Hf.
  - erewrite bind_normal by reflexivity.
    rewrite (bind_normal _ _ _ _ _
      (formAddLoop_even c args m (S (length args)) 0 cl f w ltac:(lia) ltac:(lia) Hc Hf)).
    rewrite (bind_normal _ _ _ _ _ (load_spec _ _ _ (setClient_lookup _ _ _))).
    rewrite (bind_normal _ _ _ _ _ (modifyClient_spec _ _ _ _ (setClient_lookup _ _ _))).
    rewrite setClient_setClient. reflexivity.
  - rewrite (bind_normal _ _ _ _ _ (modifyClient_spec _ _ _ _ Hc)).
    rewrite (bind_normal _ _ _ _ _
      (formAddLoop_even c args m (S (length args)) 0 (set_form (Some ∅) cl) ∅ _ ltac:(lia)
         ltac:(lia) (setClient_lookup _ _ _) eq_refl)).
    rewrite (bind_normal _ _ _ _ _ (load_spec _ _ _ (setClient_lookup _ _ _))).
    rewrite (bind_normal _ _ _ _ _ (modifyClient_spec _ _ _ _ (setClient_lookup _ _ _))).
    rewrite !setClient_setClient. reflexivity.
Qed.

(** X5: [FormData] with an even number of arguments adds each pair to
    the form (creating it if nil, keeping earlier values) and sets the
    body to the encoded form; nothing else changes and nothing is
    reported. *)
Theorem FormData_even (c : nat) (cl : Client) (w : World) (args : list gostr) :
  w_clients w !! c = Some cl -> Nat.even (length args) = true ->
  FormData c args w =
  (Normal c, setClient w c
     (set_body (Some (encodeValues (addPairs (default ∅ (c_form cl)) args)))
        (set_form (Some (addPairs (default ∅ (c_form cl)) args)) cl))).
Proof. apply FormData_even_spec. Qed.

Lemma addPairs_app (f : Values) (a b : list gostr) :
  Nat.even (length a) = true -> addPairs f (a ++ b) = addPairs (addPairs f a) b.
Proof.
  intros Ha. apply Nat.even_spec in Ha as [n Hn]. revert a f Hn.
  induction n as [|n IH]; intros a f Hn.
  - destruct a; [reflexivity|simpl in Hn; lia].
  - destruct a as [|k [|v a]]; simpl in Hn; try lia. cbn. apply IH. lia.
Qed.

(** X6: two [FormData] calls with even argument lists leave the same
    builder as one call with both lists. *)
Theorem FormData_compose (c : nat) (cl : Client) (w : World) (a b : list gostr) :
  w_clients w !! c = Some cl -> Nat.even (length a) = true -> Nat.even (length b) = true ->
  (_ ← FormData c a; FormData c b) w = FormData c (a ++ b) w.
Proof.
  intros Hc Ha Hb.
  rewrite (bind_normal _ _ _ _ _ (FormData_even_spec _ _ _ _ Hc Ha)).
  rewrite (FormData_even_spec _ _ _ _ (setClient_lookup _ _ _) Hb).
  rewrite (FormData_even_spec _ _ _ _ Hc) by (rewrite length_app, Nat.even_add, Ha, Hb; reflexivity).
  rewrite setClient_setClient, addPairs_app by exact Ha. reflexivity.
Qed.

(** X7: with a tester whose [FailNow] does not return (testing.T),
    [FormData] with an odd number of arguments reports the missing pair
    and stops the test before touching the form or the body. *)
Theorem FormData_odd_halts (c : nat) (cl : Client) (w : World) (args : list gostr) :
  w_clients w !! c = Some cl -> t_failNowHalts (c_t cl) = true -> Nat.odd (length args) = true ->
  fst (FormData c args w) = Goexit /\
  w_log (snd (FormData c args w)) =
    w_log w ++ [mkReport (lit "Incorrect number of parameters %d items, missed pair")
                  [AInt (Z.of_nat (length args))]] /\
  option_map (fun cl' => (c_form cl', c_body cl')) (w_clients (snd (FormData c args w)) !! c)
    = Some (c_form cl, c_body cl).
Proof.
  intros Hc Ht Hodd. unfold FormData. rewrite Hodd.
  rewrite (bind_failNow _ _ _ _ _ _ Hc). cbv zeta. rewrite Ht. cbn [fst snd w_log w_clients].
  split; [reflexivity|]. split; [reflexivity|]. by rewrite lookup_insert_eq.
Qed.

(** ** buildRequest, extra properties *)

Lemma buildRequest_method (c : nat) (cl : Client) (w : World) :
  w_clients w !! c = Some cl ->
  (if bool_decide (0 < formLen (c_form cl))%nat && bool_decide (c_method cl = [])
   then _ ← Method c (lit "POST"); mret tt else mret tt) w
  = (Normal tt, setClient w c (set_method (sentMethod cl) cl)).
Proof.
  intros Hc. unfold sentMethod.
  destruct (bool_decide (0 < formLen (c_form cl))%nat && bool_decide (c_method cl = [])).
  - erewrite bind_normal; [reflexivity|]. unfold Method.
    rewrite (bind_normal _ _ _ _ _ (modifyClient_spec _ _ _ _ Hc)). reflexivity.
  - replace (set_method (c_method cl) cl) with cl by (by destruct cl).
    by rewrite setClient_id.
Qed.

Lemma buildRequest_ok (c : nat) (base : gostr) (cl : Client) (w : World) (req0 : Request) :
  w_clients w !! c = Some cl -> c_err cl = None ->
  newRequestWithContext (c_context cl) (sentMethod cl) (joinPath base (c_url cl)) (c_body cl)
    = Ok req0 ->
  buildRequest c base w
  = (Normal (Some (withHeader req0 (sentHeader cl))),
     setClient w c (set_header (sentHeader cl) (set_method (sentMethod cl) cl))).
Proof.
  intros Hc Herr Hreq. unfold buildRequest. step_load. rewrite Herr. cbv beta iota zeta.
  rewrite (bind_normal _ _ _ _ _ (buildRequest_method _ _ _ Hc)).
  rewrite (bind_normal _ _ _ _ _ (load_spec _ _ _ (setClient_lookup _ _ _))).
  cbn [c_context c_method c_url c_body set_method]. rewrite Hreq. cbn [errOf].
  erewrite bind_normal by reflexivity. cbv beta iota.
  rewrite (bind_normal _ _ _ _ _ (load_spec _ _ _ (setClient_lookup _ _ _))).
  rewrite (bind_normal _ _ _ _ _ (modifyClient_spec _ _ _ _ (setClient_lookup _ _ _))).
  rewrite setClient_setClient. reflexivity.
Qed.

(** X8: when the request can be built, [buildRequest] returns it with
    header [h'] and stores [h'] as the builder's header too: with a
    non-empty form [h'] sets the form content type (and the method
    becomes POST if none was set); otherwise a body without a content
    type gets [DefaultContentType]; otherwise the header is unchanged. *)
Theorem buildRequest_content_type (c : nat) (base : gostr) (cl : Client) (w : World)
    (req0 : Request) :
  w_clients w !! c = Some cl -> c_err cl = None ->
  newRequestWithContext (c_context cl) (sentMethod cl) (joinPath base (c_url cl)) (c_body cl)
    = Ok req0 ->
  exists h' m,
    buildRequest c base w
    = (Normal (Some (withHeader req0 h')), setClient w c (set_header h' (set_method m cl))) /\
    ((0 < formLen (c_form cl))%nat ->
       h' = hset (c_header cl) (lit "Content-Type") (lit "application/x-www-form-urlencoded")) /\
    ((0 < formLen (c_form cl))%nat -> c_method cl = [] -> m = lit "POST") /\
    (formLen (c_form cl) = 0%nat \/ c_method cl <> [] -> m = c_method cl) /\
    (formLen (c_form cl) = 0%nat -> is_Some (c_body cl) ->
       hget (c_header cl) (lit "Content-Type") = [] ->
       h' = hset (c_header cl) (lit "Content-Type") DefaultContentType) /\
    (formLen (c_form cl) = 0%nat ->
       c_body cl = None \/ hget (c_header cl) (lit "Content-Type") <> [] ->
       h' = c_header cl).
Proof.
  intros Hc Herr Hreq. exists (sentHeader cl), (sentMethod cl).
  split; [by apply buildRequest_ok|]. unfold sentHeader, sentMethod. cbv zeta.
  split; [intros Hf; by rewrite bool_decide_true|].
  split; [intros Hf Hm; by rewrite !bool_decide_true|].
  split; [intros [Hf|Hm]; [rewrite (bool_decide_false (0 < _)%nat) by lia
                          |rewrite (bool_decide_false (c_method cl = [])) by exact Hm;
                           rewrite andb_false_r]; reflexivity|].
  split; [intros Hf Hb Hg; rewrite bool_decide_false by lia; by rewrite !bool_decide_true|].
  intros Hf [Hb|Hg]; rewrite bool_decide_false by lia.
  - rewrite (bool_decide_false (is_Some (c_body cl))); [reflexivity|].
    rewrite Hb. intros [? ?]; discriminate.
  - rewrite (bool_decide_false (hget _ _ = [])) by exact Hg. by rewrite andb_false_r.
Qed.

Lemma sentMethod_again (cl : Client) (h : HttpHeader) :
  sentMethod (set_header h (set_method (sentMethod cl) cl)) = sentMethod cl.
Proof.
  unfold sentMethod. cbn [c_form c_method set_header set_method].
  repeat case_bool_decide; cbn [andb]; first [reflexivity | congruence | done].
Qed.

Lemma sentHeader_again (cl : Client) (m : gostr) :
  sentHeader (set_header (sentHeader cl) (set_method m cl)) = sentHeader cl.
Proof.
  unfold sentHeader. cbn [c_form c_body c_header set_header set_method]. cbv zeta.
  destruct (bool_decide (0 < formLen (c_form cl))%nat).
  - unfold hset. by rewrite insert_insert_eq.
  - destruct (bool_decide (is_Some (c_body cl)) && bool_decide (hget (c_header cl) (lit "Content-Type") = [])) eqn:B;
      [|by rewrite B].
    rewrite (bool_decide_false (hget _ _ = [])); [by rewrite andb_false_r|].
    unfold hget, hset. rewrite lookup_insert_eq. discriminate.
Qed.

(** X9: building the request a second time gives the same request and
    leaves the builder as the first build left it. *)
Theorem buildRequest_idempotent (c : nat) (base : gostr) (cl : Client) (w : World)
    (req0 : Request) :
  w_clients w !! c = Some cl -> c_err cl = None ->
  newRequestWithContext (c_context cl) (sentMethod cl) (joinPath base (c_url cl)) (c_body cl)
    = Ok req0 ->
  buildRequest c base (snd (buildRequest c base w)) = buildRequest c base w.
Proof.
  intros Hc Herr Hreq. rewrite (buildRequest_ok _ _ _ _ _ Hc Herr Hreq). cbn [snd].
  rewrite (buildRequest_ok _ _ _ _ req0 (setClient_lookup _ _ _)); [| exact Herr |].
  - rewrite sentHeader_again, sentMethod_again, setClient_setClient. reflexivity.
  - rewrite sentMethod_again. exact Hreq.
Qed.

(** X10: when [http.NewRequestWithContext] fails with [e], [buildRequest]
    reports "Expected no error, got %v" with [e], records an error on the
    builder and returns nil (or stops the test if [FailNow] does not
    return). *)
Theorem buildRequest_request_error (c : nat) (base : gostr) (cl : Client) (w : World)
    (e : GoError) :
  w_clients w !! c = Some cl -> c_err cl = None ->
  newRequestWithContext (c_context cl) (sentMethod cl) (joinPath base (c_url cl)) (c_body cl)
    = Err e ->
  fst (buildRequest c base w) = afterFailNow (c_t cl) None /\
  w_log (snd (buildRequest c base w))
    = w_log w ++ [mkReport (lit "Expected no error, got %v") [AErr e]] /\
  errSet c (snd (buildRequest c base w)).
Proof.
  intros Hc Herr Hreq. unfold buildRequest. step_load. rewrite Herr. cbv beta iota zeta.
  rewrite (bind_normal _ _ _ _ _ (buildRequest_method _ _ _ Hc)).
  rewrite (bind_normal _ _ _ _ _ (load_spec _ _ _ (setClient_lookup _ _ _))).
  cbn [c_context c_method c_url c_body set_method]. rewrite Hreq. cbn [errOf].
  rewrite (bind_after _ _ _ _ _ _ (hasError_some _ _ _ _ (setClient_lookup _ _ _))).
  cbn [c_t set_method]. unfold afterFailNow.
  destruct (t_failNowHalts (c_t cl)); cbv beta iota; cbn [fst snd w_log w_clients mret M_ret];
    (split; [reflexivity|split; [reflexivity|]]);
    (eexists; split; [apply lookup_insert_eq|]); cbn; discriminate.
Qed.

(** X11: a fresh client from [New] builds a GET request for
    [joinPath(baseURL, "/")] in the background context with no body,
    whose header holds exactly the Accept (application/json) and
    User-Agent defaults. *)
Theorem New_default_request (t : Tester) (w : World) (base : gostr) (req0 : Request) :
  newRequestWithContext Background (lit "GET") (joinPath base (lit "/")) None = Ok req0 ->
  fst ((c ← New t; buildRequest c base) w)
  = Normal (Some (withHeader req0
      (hset (hset ∅ (lit "Accept") (lit "application/json")) (lit "User-Agent") UserAgent))).
Proof.
  intros Hreq. unfold New. cbv zeta. erewrite bind_normal by reflexivity.
  erewrite (buildRequest_ok _ _ _ _ req0); cycle 1;
    [lookup_done | reflexivity | exact Hreq | reflexivity].
Qed.

(** ** BodyJSON with a payload, hasError *)

(** X12: [BodyJSON] with a non-nil payload sets the body to the JSON
    encoding when marshalling succeeds, and nothing else; when it fails
    with [e] it reports "Expected no error, got %v", records an error on
    the builder and leaves the body as it was. *)
Theorem BodyJSON_payload (c : nat) (cl : Client) (w : World) (p : Payload) :
  w_clients w !! c = Some cl ->
  (forall buf, jsonMarshal p = Ok buf ->
     BodyJSON c (Some p) w = (Normal c, setClient w c (set_body (Some buf) cl))) /\
  (forall e, jsonMarshal p = Err e ->
     fst (BodyJSON c (Some p) w) = afterFailNow (c_t cl) c /\
     w_log (snd (BodyJSON c (Some p) w))
       = w_log w ++ [mkReport (lit "Expected no error, got %v") [AErr e]] /\
     exists cl', w_clients (snd (BodyJSON c (Some p) w)) !! c = Some cl' /\
       c_err cl' <> None /\ c_body cl' = c_body cl).
Proof.
  intros Hc. split.
  - intros buf Hm. unfold BodyJSON. cbv zeta. rewrite Hm. cbn [errOf].
    erewrite bind_normal by reflexivity. cbv beta iota. unfold BodyBytes.
    rewrite (bind_normal _ _ _ _ _ (modifyClient_spec _ _ _ _ Hc)). reflexivity.
  - intros e Hm. unfold BodyJSON. cbv zeta. rewrite Hm. cbn [errOf].
    rewrite (bind_after _ _ _ _ _ _ (hasError_some _ _ _ _ Hc)). unfold afterFailNow.
    destruct (t_failNowHalts (c_t cl)); cbv beta iota; cbn [fst snd w_log w_clients mret M_ret];
      (split; [reflexivity|split; [reflexivity|]]);
      (eexists; split; [apply lookup_insert_eq|]); cbn; (split; [discriminate|reflexivity]).
Qed.

(** X13: [hasError(nil)] returns false and changes nothing; for a
    non-nil [err] it reports "Expected no error, got %v" and the error it
    leaves on the builder is that report's error, not [err] itself (the
    [failNow] inside overwrites [c.err]). *)
Theorem hasError_records_report (c : nat) (cl : Client) (w : World) :
  hasError c None w = (Normal false, w) /\
  (forall e, w_clients w !! c = Some cl ->
     fst (hasError c (Some e) w) = afterFailNow (c_t cl) true /\
     w_log (snd (hasError c (Some e) w))
       = w_log w ++ [mkReport (lit "Expected no error, got %v") [AErr e]] /\
     option_map c_err (w_clients (snd (hasError c (Some e) w)) !! c)
       = Some (Some (Errorf (lit "Expected no error, got %v") [AErr e]))).
Proof.
  split; [reflexivity|]. intros e Hc. rewrite (hasError_some _ _ _ _ Hc). cbn [fst snd w_log w_clients].
  split; [reflexivity|split; [reflexivity|]]. by rewrite lookup_insert_eq.
Qed.

(** ** Do keeps the server client's CheckRedirect *)

Definition polIs (p : option RedirectPolicy) (w : World) : Prop := w_checkRedirect w = p.

Lemma pol_load p c : preserves (polIs p) (load c).
Proof. intros w Hw. unfold load. by destruct (w_clients w !! c). Qed.
Lemma pol_modify p c f : preserves (polIs p) (modifyClient c f).
Proof.
  intros w Hw. unfold modifyClient, mbind, M_bind, load, store.
  by destruct (w_clients w !! c).
Qed.
Lemma pol_errorf p format args : preserves (polIs p) (errorf format args).
Proof. by intros w Hw. Qed.
Lemma pol_failNowT p t : preserves (polIs p) (failNowT t).
Proof. unfold failNowT. destruct (t_failNowHalts t); by intros w Hw. Qed.
Lemma pol_readBool p a : preserves (polIs p) (readBool a).
Proof. by intros w Hw. Qed.
Lemma pol_writeBool p a b : preserves (polIs p) (writeBool a b).
Proof. by intros w Hw. Qed.
Lemma pol_get p : preserves (polIs p) getCheckRedirect.
Proof. by intros w Hw. Qed.

Create HintDb polset.
#[local] Hint Resolve preserves_ret preserves_goexit preserves_panic preserves_noFuel
  pol_load pol_modify pol_errorf pol_failNowT pol_readBool pol_writeBool pol_get : polset.

Ltac pres_pol :=
  repeat match goal with
  | |- preserves _ (mbind _ _) => apply preserves_bind; [|intros ?]
  | |- preserves _ (if ?b then _ else _) => destruct b
  | |- preserves _ (match ?x with _ => _ end) => destruct x
  end; eauto with polset.

Lemma pol_failNow p c format args : preserves (polIs p) (failNow c format args).
Proof. unfold failNow. pres_pol. Qed.
#[local] Hint Resolve pol_failNow : polset.

Lemma pol_hasError p c e : preserves (polIs p) (hasError c e).
Proof. unfold hasError. pres_pol. Qed.
#[local] Hint Resolve pol_hasError : polset.

Lemma pol_checkRedirect p next via : preserves (polIs p) (checkRedirect next via).
Proof. unfold checkRedirect. pres_pol. Qed.
#[local] Hint Resolve pol_checkRedirect : polset.

Lemma pol_follow p fuel srv : forall req via, preserves (polIs p) (follow fuel srv req via).
Proof.
  induction fuel as [|fuel IH]; intros req via; cbn [follow]; [apply preserves_noFuel|].
  destruct (srv_handler srv req); cbv zeta; pres_pol.
Qed.

Lemma pol_doAfter p c b r : preserves (polIs p) (doAfter c b r).
Proof. unfold doAfter. pres_pol. Qed.

(** X14: once [Do] got a request, the server client's [CheckRedirect]
    afterwards is the one it had, or [Do]'s own closure if it had none,
    however the dispatch ends: [Do] never replaces an existing
    [CheckRedirect] and never removes its own. *)
Theorem Do_keeps_checkRedirect (fuel c : nat) (srv : Server) (w w1 : World) (req : Request) :
  buildRequest c (srv_URL srv) w = (Normal (Some req), w1) ->
  w_checkRedirect (snd (Do fuel c srv w))
  = Some (default (DoCheck c (w_next w1)) (w_checkRedirect w1)).
Proof.
  intros HB. rewrite (Do_install _ _ _ _ _ _ HB).
  apply (preserves_bind (polIs _)); [apply pol_follow|intros r; apply pol_doAfter|reflexivity].
Qed.

(** X15: when the server cannot be reached ([client.Do] returns [e]),
    [Do] reports "Expected no error, got %v" with the [*url.Error] for
    the request's method and URL, and returns nil. *)
Theorem Do_transport_error (fuel c : nat) (srv : Server) (w w1 : World) (req : Request)
    (cl : Client) (e : GoError) :
  buildRequest c (srv_URL srv) w = (Normal (Some req), w1) ->
  w_clients w1 !! c = Some cl ->
  srv_handler srv req = RNetErr e ->
  fst (Do (S fuel) c srv w) = afterFailNow (c_t cl) None /\
  w_log (snd (Do (S fuel) c srv w))
    = w_log w1 ++ [mkReport (lit "Expected no error, got %v")
                     [AErr (UrlError (rq_method req) (rq_url req) e)]].
Proof.
  intros HB Hc Hh. rewrite (Do_install _ _ _ _ _ _ HB).
  assert (E : follow (S fuel) srv req [] (installed c w1)
              = (Normal (Err (UrlError (rq_method req) (rq_url req) e)), installed c w1))
    by (cbn [follow]; rewrite Hh; reflexivity).
  rewrite (bind_normal _ _ _ _ _ E). exact (doAfter_err c (w_next w1) cl _ (installed c w1) Hc).
Qed.

(** X16: a [Do] that expects a redirect, gets it to the expected path
    and then a final reply with status [s] below 400 (and no explicit
    expected status) returns that reply; the only report is the self
    test's, when the tester is the fake one. *)
Theorem Do_redirect_then_success (fuel c : nat) (srv : Server) (w w1 : World) (req : Request)
    (cl : Client) (st s : Z) (body0 body : gostr) :
  buildRequest c (srv_URL srv) w = (Normal (Some req), w1) ->
  w_checkRedirect w1 = None ->
  w_clients w1 !! c = Some cl ->
  c_expectedStatus cl = 0 ->
  srv_handler srv req = RStatus st (Some (c_expectRedirectPath cl)) body0 ->
  isRedirectStatus st = true ->
  srv_handler srv (redirectRequest req st (c_expectRedirectPath cl)) = RStatus s None body ->
  s < 400 ->
  fst (Do (S (S fuel)) c srv w) = Normal (Some (mkResponse s body)) /\
  w_log (snd (Do (S (S fuel)) c srv w)) = w_log w1 ++ selfTestReports (c_t cl).
Proof.
  intros HB Hp Hc Hes Hh Hr Hh2 Hs. rewrite (Do_install _ _ _ _ _ _ HB).
  set (W := installed c w1).
  set (W' := mkWorld (w_clients W) (<[w_next w1 := true]> (w_bools W)) (w_next W)
               (w_checkRedirect W) (w_log W)).
  assert (E : follow (S (S fuel)) srv req [] W = (Normal (Ok (mkResponse s body)), W')).
  { rewrite (follow_hop_match _ c (w_next w1) cl _ _ _ _ _ _ _ (installed_policy _ _ Hp) Hc Hh Hr
               eq_refl).
    exact (follow_final _ _ _ _ _ _ _ _ Hh2 (or_introl eq_refl)). }
  rewrite (bind_normal _ _ _ _ _ E).
  unfold doAfter. erewrite bind_normal by reflexivity. cbv beta iota.
  assert (Hc' : w_clients W' !! c = Some cl) by exact Hc.
  rewrite (bind_normal _ _ _ _ _ (load_spec _ _ _ Hc')).
  erewrite bind_normal by reflexivity. cbv beta.
  unfold W'. cbn [w_bools]. rewrite lookup_insert_eq. cbn [default negb].
  rewrite andb_false_r, Hes. cbn [Z.eqb resp_status andb]. rewrite (proj2 (Z.leb_gt 400 s) Hs).
  cbn [negb andb Z.ltb Z.compare].
  unfold selfTestReports. destruct (c_t cl) eqn:Et; cbn [t_isFakeTester].
  - erewrite bind_normal by reflexivity. by rewrite app_nil_r.
  - rewrite (bind_failNow _ _ _ _ _ _ Hc'). rewrite Et. done.
  - erewrite bind_normal by reflexivity. by rewrite app_nil_r.
Qed.

End ClientProofs.

(** C2: after [BodyJSON(nil)] recorded [ErrNilBodyJSON], a later [Method]
    still changes the method and [ExpectedStatusCode(302)] replaces the
    recorded error by its own. *)
Lemma err_sticky_counterexample :
  match fst (stickyScenario emptyWorld) with
  | Normal (before, after) =>
      c_err before = Some ErrNilBodyJSON /\ c_method before = lit "GET" /\
      c_method after = lit "POST" /\ c_err after <> c_err before
  | _ => False
  end.
Proof. vm_compute. repeat split; discriminate. Qed.

Lemma err_sticky_amended_witness :
  errSet 0 (snd ((c ← New (GL := toyLib) FakeTester; BodyJSON (GL := toyLib) c None) emptyWorld)) /\
  errSet 0 (snd (runOps (GL := toyLib) 0 [OpMethod (lit "POST"); OpExpectedStatusCode 302]
    (snd ((c ← New (GL := toyLib) FakeTester; BodyJSON (GL := toyLib) c None) emptyWorld)))).
Proof.
  assert (H : errSet 0 (snd ((c ← New (GL := toyLib) FakeTester;
                              BodyJSON (GL := toyLib) c None) emptyWorld))).
  { unfold errSet. vm_compute. eexists. split; [reflexivity|discriminate]. }
  split; [exact H|].
  exact (proj1 (err_sticky_amended (GL := toyLib) 0 _ [OpMethod (lit "POST"); OpExpectedStatusCode 302] H)).
Defined.

(** ** joinPath *)

(** C10 (amended). [joinPath] inserts one ['/'] when [path] lacks a
    leading ['/'] and none otherwise, so the join point always carries a
    ['/']; it carries a single ['/'] when [root] does not end in ['/'] and
    [path] does not itself start with ["//"]. *)
Theorem joinPath_join_point (root path : gostr) :
  (hasPrefix path (lit "/") = false -> joinPath root path = root ++ lit "/" ++ path) /\
  (hasPrefix path (lit "/") = true -> joinPath root path = root ++ path) /\
  (exists rest, joinPath root path = root ++ "/"%char :: rest) /\
  (last root <> Some "/"%char -> hasPrefix path (lit "//") = false ->
   exists rest, joinPath root path = root ++ "/"%char :: rest /\ head rest <> Some "/"%char).
Proof.
  unfold joinPath. split; [intros ->; reflexivity|]. split; [intros ->; reflexivity|].
  destruct path as [|x p].
  - split; [by exists []|]. intros _ _. exists []. split; [reflexivity|discriminate].
  - destruct (decide (x = "/"%char)) as [->|Hx].
    + assert (Hp : hasPrefix ("/"%char :: p) (lit "/") = true)
        by (unfold hasPrefix; apply bool_decide_eq_true; reflexivity).
      rewrite Hp. split; [by exists p|].
      intros _ H2. exists p. split; [reflexivity|].
      destruct p as [|y p]; [discriminate|]. intros Hy. injection Hy as ->.
      unfold hasPrefix in H2. rewrite bool_decide_eq_false in H2. by apply H2.
    + assert (Hp : hasPrefix (x :: p) (lit "/") = false).
      { unfold hasPrefix. apply bool_decide_eq_false. cbn. intros E. injection E. auto. }
      rewrite Hp. split; [by exists (x :: p)|].
      intros _ _. exists (x :: p). split; [reflexivity|]. intros E. injection E. auto.
Qed.

(** C10: a root ending in ['/'] and a relative path give a doubled slash. *)
Lemma joinPath_counterexample :
  joinPath (lit "/") (lit "a") = lit "//a" /\
  joinPath (lit "/api/") (lit "users") = lit "/api//users".
Proof. split; reflexivity. Qed.

Lemma joinPath_join_point_witness :
  exists rest, joinPath (lit "/api") (lit "users") = lit "/api" ++ "/"%char :: rest /\
               head rest <> Some "/"%char.
Proof.
  apply (proj2 (proj2 (proj2 (joinPath_join_point (lit "/api") (lit "users"))))).
  - discriminate.
  - reflexivity.
Defined.

Lemma FormData_odd_panics_witness :
  fst ((c ← New (GL := toyLib) FakeTester; FormData (GL := toyLib) c [lit "a"]) emptyWorld)
    = Panic (lit "runtime error: index out of range").
Proof.
  pose proof (FormData_odd_panics (GL := toyLib) 0 _ (snd (New (GL := toyLib) FakeTester emptyWorld))
                [lit "a"] (lookup_insert_eq _ _ _) eq_refl eq_refl) as [H _].
  exact H.
Defined.

(** ** Witnesses and the redirect loop *)

Lemma ExpectedStatusCode_redirect_guard_witness :
  fst (ExpectedStatusCode 0 302 fakeWorld) = afterFailNow (c_t (clientAt fakeWorld 0)) 0%nat.
Proof.
  assert (Hc : w_clients fakeWorld !! 0%nat = Some (clientAt fakeWorld 0)) by reflexivity.
  apply (proj1 (ExpectedStatusCode_redirect_guard 0 302 _ _ Hc)). lia.
Defined.

Lemma BodyJSON_nil_payload_witness :
  BuildRequest (GL := toyLib) 0 (snd (BodyJSON (GL := toyLib) 0 None fakeWorld))
  = (Normal None, snd (BodyJSON (GL := toyLib) 0 None fakeWorld)).
Proof.
  assert (Hc : w_clients fakeWorld !! 0%nat = Some (clientAt fakeWorld 0)) by reflexivity.
  apply (BodyJSON_nil_payload (GL := toyLib) 0 _ _ Hc).
Defined.

Lemma Do_status_validation_witness :
  fst (Do (GL := toyLib) 1 0 (statusServer 404) (startWorld TestingT [])) = Goexit /\
  fst (Do (GL := toyLib) 2 0 (redirectingServer (lit "/redirected")) redirectStatusWorld)
    = Goexit /\
  w_log (snd (Do (GL := toyLib) 2 0 (redirectingServer (lit "/redirected")) redirectStatusWorld))
    = [mkReport (lit "expected %d, got %d") [AInt 201; AInt 200]].
Proof.
  split.
  - set (w := startWorld TestingT []).
    set (o := buildRequest (GL := toyLib) 0 [] w).
    set (F := follow 1 (statusServer 404) (builtReq (fst o)) [] (installed 0 (snd o))).
    destruct (proj1 (proj2 (Do_status_validation (GL := toyLib) 1 0 (statusServer 404) w (snd o)
                (snd F) (builtReq (fst o)) (clientAt (snd o) 0) (mkResponse 404 [])
                ltac:(vm_compute; reflexivity) ltac:(vm_compute; reflexivity)
                ltac:(vm_compute; reflexivity) ltac:(left; vm_compute; reflexivity))))
      as [H _]; [vm_compute; reflexivity | vm_compute; discriminate |].
    rewrite H. vm_compute. reflexivity.
  - set (w := redirectStatusWorld).
    set (srv := redirectingServer (lit "/redirected")).
    set (o := buildRequest (GL := toyLib) 0 [] w).
    set (F := follow 2 srv (builtReq (fst o)) [] (installed 0 (snd o))).
    destruct (proj2 (proj2 (proj2 (Do_status_validation (GL := toyLib) 2 0 srv w (snd o)
                (snd F) (builtReq (fst o)) (clientAt (snd o) 0) (mkResponse 200 (lit "done"))
                ltac:(vm_compute; reflexivity) ltac:(vm_compute; reflexivity)
                ltac:(vm_compute; reflexivity) ltac:(right; vm_compute; reflexivity)))))
      as [H1 H2]; [vm_compute; reflexivity | vm_compute; discriminate |].
    split; [rewrite H1 | rewrite H2]; vm_compute; reflexivity.
Defined.

Lemma Do_no_expectation_refuses_redirect_witness :
  fst (Do (GL := toyLib) 1 0 (redirectingServer (lit "/redirected")) (startWorld FakeTester []))
  = Normal None.
Proof.
  set (w := startWorld FakeTester []).
  set (o := buildRequest (GL := toyLib) 0 [] w).
  assert (HB : buildRequest (GL := toyLib) 0 (srv_URL (redirectingServer (lit "/redirected"))) w
               = (Normal (Some (builtReq (fst o))), snd o)) by (vm_compute; reflexivity).
  assert (Hp : w_checkRedirect (snd o) = None) by (vm_compute; reflexivity).
  assert (Hc : w_clients (snd o) !! 0%nat = Some (clientAt (snd o) 0)) by (vm_compute; reflexivity).
  assert (He : c_expectRedirectPath (clientAt (snd o) 0) = []) by (vm_compute; reflexivity).
  assert (Hh : srv_handler (redirectingServer (lit "/redirected")) (builtReq (fst o))
               = RStatus 303 (Some (lit "/redirected")) []) by (vm_compute; reflexivity).
  destruct (Do_no_expectation_refuses_redirect (GL := toyLib) 0 0 _ w (snd o) _ _ 303
              (lit "/redirected") [] HB Hp Hc He Hh eq_refl ltac:(discriminate)) as [H _].
  rewrite H. vm_compute. reflexivity.
Defined.



Lemma loopWorld_build :
  buildRequest (GL := toyLib) 0 [] loopWorld
  = (Normal (Some (builtReq (fst (buildRequest (GL := toyLib) 0 [] loopWorld)))),
     snd (buildRequest (GL := toyLib) 0 [] loopWorld)) /\
  w_checkRedirect (snd (buildRequest (GL := toyLib) 0 [] loopWorld)) = None /\
  w_clients (snd (buildRequest (GL := toyLib) 0 [] loopWorld)) !! 0%nat
    = Some (clientAt (snd (buildRequest (GL := toyLib) 0 [] loopWorld)) 0) /\
  c_expectRedirectPath (clientAt (snd (buildRequest (GL := toyLib) 0 [] loopWorld)) 0) = lit "/loop" /\
  w_log (snd (buildRequest (GL := toyLib) 0 [] loopWorld)) = [].
Proof. vm_compute. repeat split. Qed.

(** C4: [Do] sets no hop limit. A builder for [GET /loop] that expects
    the redirect to [/loop], against a server that always redirects to
    [/loop]: whatever the fuel, the loop runs out of it, with nothing
    reported (no redirect-loop failure at hop 11). *)
Theorem Do_redirect_loop_unbounded (fuel : nat) :
  fst (Do (GL := toyLib) fuel 0 (loopServer (lit "/loop")) loopWorld) = NoFuel /\
  w_log (snd (Do (GL := toyLib) fuel 0 (loopServer (lit "/loop")) loopWorld)) = [].
Proof.
  destruct loopWorld_build as (HB & Hp & Hc & He & Hl).
  rewrite (Do_install (GL := toyLib) fuel 0 (loopServer (lit "/loop")) loopWorld _ _ HB).
  destruct (follow_loop 0 _ _ (lit "/loop") He fuel
              (builtReq (fst (buildRequest (GL := toyLib) 0 [] loopWorld))) [] _
              (installed_policy 0 _ Hp) Hc) as [w' [E Hl']].
  rewrite (bind_noFuel _ _ _ _ E). split; [reflexivity|]. cbn [snd]. rewrite Hl'. exact Hl.
Qed.

(** ** Witnesses of the extra properties *)

Lemma replaceAll_steps_witness :
  (isDollar "a"%char && startsWord (lit "$x") = false /\
   replaceAllStringSubMatchFunc ("a"%char :: lit "$x") (fun g => nth 1 g [])
   = "a"%char :: replaceAllStringSubMatchFunc (lit "$x") (fun g => nth 1 g [])) /\
  (lit "ab" <> [] /\ Forall (fun c => isWordByte c = true) (lit "ab") /\
   startsWord (lit "-z") = false /\
   replaceAllStringSubMatchFunc ("$"%char :: lit "ab" ++ lit "-z") (fun g => nth 1 g [])
   = nth 1 ["$"%char :: lit "ab"; lit "ab"] [] ++
     replaceAllStringSubMatchFunc (lit "-z") (fun g => nth 1 g [])).
Proof.
  split.
  - split; [reflexivity|]. apply (proj1 (replaceAll_steps (fun g => nth 1 g []))). reflexivity.
  - split; [discriminate|]. split; [repeat constructor|]. split; [reflexivity|].
    apply (proj2 (replaceAll_steps (fun g => nth 1 g [])) (lit "ab") (lit "-z"));
      [discriminate|repeat constructor|reflexivity].
Defined.

Lemma expandStr_plain_prefix_witness :
  Forall (fun c => isDollar c = false) (lit "id=") /\
  expandStr Z (fun z => fmtInt z) (fun _ => None) (lit "id=" ++ lit "$0") [7]
  = lit "id=" ++ expandStr Z (fun z => fmtInt z) (fun _ => None) (lit "$0") [7].
Proof. split; [repeat constructor|apply expandStr_plain_prefix; repeat constructor]. Defined.

Lemma Header_sets_then_adds_witness :
  w_clients fakeWorld !! 0%nat = Some (clientAt fakeWorld 0) /\
  Header (GL := toyLib) 0 (lit "X-Id") (lit "1") [lit "2"] fakeWorld
  = (Normal 0%nat, setClient fakeWorld 0
       (set_header (<[lit "X-Id" := [lit "1"; lit "2"]]> (c_header (clientAt fakeWorld 0)))
          (clientAt fakeWorld 0))).
Proof. split; [reflexivity|]. apply (Header_sets_then_adds (GL := toyLib)). reflexivity. Defined.

Lemma FormData_even_witness :
  w_clients fakeWorld !! 0%nat = Some (clientAt fakeWorld 0) /\
  Nat.even (length [lit "a"; lit "1"]) = true /\
  FormData (GL := toyLib) 0 [lit "a"; lit "1"] fakeWorld
  = (Normal 0%nat, setClient fakeWorld 0
       (set_body (Some (encodeValues (GoLib := toyLib)
                          (addPairs (default ∅ (c_form (clientAt fakeWorld 0))) [lit "a"; lit "1"])))
          (set_form (Some (addPairs (default ∅ (c_form (clientAt fakeWorld 0))) [lit "a"; lit "1"]))
             (clientAt fakeWorld 0)))).
Proof.
  split; [reflexivity|]. split; [reflexivity|].
  apply (FormData_even (GL := toyLib)); reflexivity.
Defined.

Lemma FormData_compose_witness :
  w_clients fakeWorld !! 0%nat = Some (clientAt fakeWorld 0) /\
  Nat.even (length [lit "a"; lit "1"]) = true /\ Nat.even (length [lit "a"; lit "2"]) = true /\
  (_ ← FormData (GL := toyLib) 0 [lit "a"; lit "1"]; FormData (GL := toyLib) 0 [lit "a"; lit "2"])
    fakeWorld
  = FormData (GL := toyLib) 0 ([lit "a"; lit "1"] ++ [lit "a"; lit "2"]) fakeWorld.
Proof.
  split; [reflexivity|]. split; [reflexivity|]. split; [reflexivity|].
  apply (FormData_compose (GL := toyLib) 0 (clientAt fakeWorld 0)); reflexivity.
Defined.

Lemma FormData_odd_halts_witness :
  t_failNowHalts (c_t (clientAt (startWorld TestingT []) 0)) = true /\
  fst (FormData (GL := toyLib) 0 [lit "a"] (startWorld TestingT [])) = Goexit.
Proof.
  split; [reflexivity|].
  apply (proj1 (FormData_odd_halts (GL := toyLib) 0 (clientAt (startWorld TestingT []) 0)
                  (startWorld TestingT []) [lit "a"] ltac:(vm_compute; reflexivity)
                  ltac:(vm_compute; reflexivity) ltac:(reflexivity))).
Defined.

Lemma buildRequest_content_type_witness :
  exists h' m,
    buildRequest (GL := toyLib) 0 [] fakeWorld
    = (Normal (Some (withHeader (mkRequest (lit "GET") (lit "/") (lit "/") None ∅) h')),
       setClient fakeWorld 0 (set_header h' (set_method m (clientAt fakeWorld 0)))).
Proof.
  destruct (buildRequest_content_type (GL := toyLib) 0 [] (clientAt fakeWorld 0) fakeWorld
              (mkRequest (lit "GET") (lit "/") (lit "/") None ∅)
              ltac:(reflexivity) ltac:(reflexivity) ltac:(vm_compute; reflexivity))
    as (h' & m & E & _).
  exists h', m. exact E.
Defined.

Lemma buildRequest_idempotent_witness :
  buildRequest (GL := toyLib) 0 [] (snd (buildRequest (GL := toyLib) 0 [] fakeWorld))
  = buildRequest (GL := toyLib) 0 [] fakeWorld.
Proof.
  apply (buildRequest_idempotent (GL := toyLib) 0 [] (clientAt fakeWorld 0) fakeWorld
           (mkRequest (lit "GET") (lit "/") (lit "/") None ∅));
    [reflexivity | reflexivity | vm_compute; reflexivity].
Defined.

(** A builder whose method [http.NewRequestWithContext] refuses. *)
Lemma buildRequest_request_error_witness :
  fst (buildRequest (GL := methodCheckingLib) 0 []
         (snd ((c ← New (GL := methodCheckingLib) TestingT; Method c (lit "BAD METHOD"))
                 emptyWorld)))
  = Goexit.
Proof.
  set (W := snd ((c ← New (GL := methodCheckingLib) TestingT; Method c (lit "BAD METHOD"))
                   emptyWorld)).
  apply (proj1 (buildRequest_request_error (GL := methodCheckingLib) 0 [] (clientAt W 0) W
                  (Errorf (lit "net/http: invalid method %q") [AStr (lit "BAD METHOD")])
                  ltac:(vm_compute; reflexivity) ltac:(vm_compute; reflexivity)
                  ltac:(vm_compute; reflexivity))).
Defined.

Lemma New_default_request_witness :
  fst ((c ← New (GL := toyLib) TestingT; buildRequest (GL := toyLib) c []) emptyWorld)
  = Normal (Some (withHeader (mkRequest (lit "GET") (lit "/") (lit "/") None ∅)
      (hset (GL := toyLib) (hset (GL := toyLib) ∅ (lit "Accept") (lit "application/json"))
         (lit "User-Agent") UserAgent))).
Proof. apply (New_default_request (GL := toyLib)). reflexivity. Defined.

Lemma BodyJSON_payload_witness :
  BodyJSON (GL := toyLib) 0 (Some tt) fakeWorld
  = (Normal 0%nat, setClient fakeWorld 0 (set_body (Some (lit "{}")) (clientAt fakeWorld 0))).
Proof.
  apply (proj1 (BodyJSON_payload (GL := toyLib) 0 (clientAt fakeWorld 0) fakeWorld tt
                  ltac:(reflexivity))).
  reflexivity.
Defined.

Lemma hasError_records_report_witness :
  option_map c_err (w_clients (snd (hasError 0 (Some (ErrorsNew (lit "boom"))) fakeWorld)) !! 0%nat)
  = Some (Some (Errorf (lit "Expected no error, got %v") [AErr (ErrorsNew (lit "boom"))])).
Proof.
  apply (proj2 (proj2 (proj2 (hasError_records_report 0 (clientAt fakeWorld 0) fakeWorld)
                         (ErrorsNew (lit "boom")) ltac:(reflexivity)))).
Defined.

Lemma Do_keeps_checkRedirect_witness :
  w_checkRedirect (snd (Do (GL := toyLib) 20 0 (redirectingServer (lit "/redirected"))
                          (startWorld TestingT (lit "/redirected"))))
  = Some (default (DoCheck 0 (w_next (snd (buildRequest (GL := toyLib) 0 []
                                           (startWorld TestingT (lit "/redirected"))))))
            (w_checkRedirect (snd (buildRequest (GL := toyLib) 0 []
                                     (startWorld TestingT (lit "/redirected")))))).
Proof.
  set (w := startWorld TestingT (lit "/redirected")).
  set (o := buildRequest (GL := toyLib) 0 [] w).
  apply (Do_keeps_checkRedirect (GL := toyLib) 20 0 (redirectingServer (lit "/redirected")) w
           (snd o) (builtReq (fst o))).
  vm_compute. reflexivity.
Defined.

Lemma Do_transport_error_witness :
  fst (Do (GL := toyLib) 1 0 downServer fakeWorld) = Normal None.
Proof.
  set (o := buildRequest (GL := toyLib) 0 [] fakeWorld).
  destruct (Do_transport_error (GL := toyLib) 0 0 downServer fakeWorld (snd o) (builtReq (fst o))
              (clientAt (snd o) 0) (ErrorsNew (lit "connection refused"))
              ltac:(vm_compute; reflexivity) ltac:(vm_compute; reflexivity)
              ltac:(vm_compute; reflexivity)) as [H _].
  rewrite H. vm_compute. reflexivity.
Defined.

Lemma Do_redirect_then_success_witness :
  fst (Do (GL := toyLib) 2 0 (redirectingServer (lit "/redirected"))
         (startWorld TestingT (lit "/redirected")))
  = Normal (Some (mkResponse 200 (lit "done"))).
Proof.
  set (w := startWorld TestingT (lit "/redirected")).
  set (o := buildRequest (GL := toyLib) 0 [] w).
  apply (proj1 (Do_redirect_then_success (GL := toyLib) 0 0 (redirectingServer (lit "/redirected"))
                  w (snd o) (builtReq (fst o)) (clientAt (snd o) 0) 303 200 [] (lit "done")
                  ltac:(vm_compute; reflexivity) ltac:(vm_compute; reflexivity)
                  ltac:(vm_compute; reflexivity) ltac:(vm_compute; reflexivity)
                  ltac:(vm_compute; reflexivity) ltac:(vm_compute; reflexivity)
                  ltac:(vm_compute; reflexivity) ltac:(lia))).
Defined.
